(** * QuakeWatch map utilities: clustering, colour bands and marker sizes

    A shallow embedding of [mapUtils] (getMagnitudeColor, formatDate,
    createClusterMarkers, createMarkerElement, createPopupContent,
    createLegend) together with the properties its specification states
    about them, and of the parts of [Map], [EarthquakeList] and
    [EarthquakeFilters] that use them or compute on their own: the data
    handed to markers and popups, the sorted list and its rows, and the
    state of the filter panel.

    JavaScript values are embedded as a small universal type; numbers are
    exact rationals extended with NaN and the two infinities (rounding and
    the sign of zero are not modelled).  Exceptions are an explicit sum.
    The [supercluster] package and the host's string conversions are not
    part of the sources: they are interfaces whose operations the code
    calls. *)

From Stdlib Require Import List String Bool ZArith QArith Qround Qfield Lia Lqa.
From Stdlib Require Import Permutation Sorted Qabs DecimalString.
Import ListNotations.

Set Warnings "-register-all".
Local Open Scope string_scope.
Local Open Scope Q_scope.

(* ===================================================================== *)
(** ** Numbers *)
(* ===================================================================== *)

Module Num.

(** An IEEE double without rounding: a rational, NaN or an infinity. *)
Inductive number : Type :=
| NaN
| PosInf
| NegInf
| Fin (q : Q).

Definition of_nat (n : nat) : number := Fin (inject_Z (Z.of_nat n)).

Definition is_zero (q : Q) : bool := Qeq_bool q 0.
Definition is_neg (q : Q) : bool := negb (Qle_bool 0 q).

(** Sign bookkeeping for infinite results. *)
Definition inf (negative : bool) : number :=
  if negative then NegInf else PosInf.

Definition add (a b : number) : number :=
  match a, b with
  | NaN, _ | _, NaN => NaN
  | PosInf, NegInf | NegInf, PosInf => NaN
  | PosInf, _ | _, PosInf => PosInf
  | NegInf, _ | _, NegInf => NegInf
  | Fin x, Fin y => Fin (x + y)
  end.

Definition mul (a b : number) : number :=
  match a, b with
  | NaN, _ | _, NaN => NaN
  | PosInf, PosInf | NegInf, NegInf => PosInf
  | PosInf, NegInf | NegInf, PosInf => NegInf
  | PosInf, Fin y | Fin y, PosInf =>
      if is_zero y then NaN else inf (is_neg y)
  | NegInf, Fin y | Fin y, NegInf =>
      if is_zero y then NaN else inf (negb (is_neg y))
  | Fin x, Fin y => Fin (x * y)
  end.

Definition div (a b : number) : number :=
  match a, b with
  | NaN, _ | _, NaN => NaN
  | (PosInf | NegInf), (PosInf | NegInf) => NaN
  | PosInf, Fin y => inf (is_neg y)
  | NegInf, Fin y => inf (negb (is_neg y))
  | Fin _, (PosInf | NegInf) => Fin 0
  | Fin x, Fin y =>
      if is_zero y
      then (if is_zero x then NaN else inf (is_neg x))
      else Fin (x / y)
  end.

(** [a <= b]; every comparison with NaN is false. *)
Definition leb (a b : number) : bool :=
  match a, b with
  | NaN, _ | _, NaN => false
  | NegInf, _ => true
  | _, PosInf => true
  | PosInf, _ => false
  | _, NegInf => false
  | Fin x, Fin y => Qle_bool x y
  end.

(** [a >= b] *)
Definition geb (a b : number) : bool := leb b a.

(** [Math.max(a, b)] and [Math.min(a, b)]: NaN is contagious. *)
Definition max (a b : number) : number :=
  match a, b with
  | NaN, _ | _, NaN => NaN
  | _, _ => if leb a b then b else a
  end.

Definition min (a b : number) : number :=
  match a, b with
  | NaN, _ | _, NaN => NaN
  | _, _ => if leb a b then a else b
  end.

(** [Math.floor] *)
Definition floor (a : number) : number :=
  match a with
  | Fin q => Fin (inject_Z (Qfloor q))
  | other => other
  end.

(** Truthiness of a number: 0 and NaN are falsy. *)
Definition truthy (a : number) : bool :=
  match a with
  | NaN => false
  | Fin q => negb (is_zero q)
  | _ => true
  end.

End Num.
Export Num.

(* ===================================================================== *)
(** ** Values, exceptions and property access *)
(* ===================================================================== *)

(** A JavaScript value.  An object is the list of its own properties, in
    the order they were added. *)
Inductive JsVal : Type :=
| JUndefined
| JNull
| JBool (b : bool)
| JNum (n : number)
| JStr (s : string)
| JArr (elems : list JsVal)
| JObj (props : list (string * JsVal)).

(** A computation that returns or throws a value. *)
Inductive Exc (A : Type) : Type :=
| Ok (a : A)
| Throw (error : JsVal).
Arguments Ok {A} a.
Arguments Throw {A} error.

Definition bind {A B} (m : Exc A) (k : A -> Exc B) : Exc B :=
  match m with
  | Ok a => k a
  | Throw e => Throw e
  end.

Declare Scope js_scope.
Delimit Scope js_scope with js.
Notation "x <- m ;; k" := (bind m (fun x => k))
  (at level 61, m at next level, right associativity) : js_scope.
Local Open Scope js_scope.

(** [try { body } catch (error) { handler }] *)
Definition try_catch {A} (body : Exc A) (handler : JsVal -> Exc A) : Exc A :=
  match body with
  | Ok a => Ok a
  | Throw e => handler e
  end.

Definition TypeError : JsVal := JObj [("name", JStr "TypeError")].

Fixpoint lookup (k : string) (props : list (string * JsVal)) : option JsVal :=
  match props with
  | [] => None
  | (k', v) :: rest => if String.eqb k k' then Some v else lookup k rest
  end.

(** [v.k]: reading a property of undefined or null throws a TypeError. *)
Definition get (v : JsVal) (k : string) : Exc JsVal :=
  match v with
  | JUndefined | JNull => Throw TypeError
  | JObj props =>
      match lookup k props with
      | Some x => Ok x
      | None => Ok JUndefined
      end
  | JArr elems =>
      if String.eqb k "length" then Ok (JNum (of_nat (List.length elems)))
      else Ok JUndefined
  | JStr s =>
      if String.eqb k "length" then Ok (JNum (of_nat (String.length s)))
      else Ok JUndefined
  | _ => Ok JUndefined
  end.

(** [v?.k] *)
Definition get_opt (v : JsVal) (k : string) : Exc JsVal :=
  match v with
  | JUndefined | JNull => Ok JUndefined
  | _ => get v k
  end.

(** [v[i]] for a literal index [i]. *)
Definition get_index (v : JsVal) (i : nat) : Exc JsVal :=
  match v with
  | JUndefined | JNull => Throw TypeError
  | JArr elems => Ok (nth i elems JUndefined)
  | JStr s =>
      match String.get i s with
      | Some c => Ok (JStr (String c EmptyString))
      | None => Ok JUndefined
      end
  | _ => Ok JUndefined
  end.

(** [v.k = x] in module (strict) code: on an object the property is
    replaced or added, on a primitive the assignment throws.  Named
    properties of arrays are not tracked. *)
Fixpoint update (k : string) (x : JsVal) (props : list (string * JsVal))
  : list (string * JsVal) :=
  match props with
  | [] => [(k, x)]
  | (k', v) :: rest =>
      if String.eqb k k' then (k, x) :: rest else (k', v) :: update k x rest
  end.

Definition set (v : JsVal) (k : string) (x : JsVal) : Exc JsVal :=
  match v with
  | JUndefined | JNull => Throw TypeError
  | JObj props => Ok (JObj (update k x props))
  | JArr elems => Ok (JArr elems)
  | _ => Throw TypeError
  end.

(** Truthiness ([ToBoolean]). *)
Definition truthy (v : JsVal) : bool :=
  match v with
  | JUndefined | JNull => false
  | JBool b => b
  | JNum n => Num.truthy n
  | JStr s => negb (String.eqb s "")
  | JArr _ | JObj _ => true
  end.

(** [v != null] *)
Definition not_nullish (v : JsVal) : bool :=
  match v with
  | JUndefined | JNull => false
  | _ => true
  end.

(** [v === 'literal'] *)
Definition is_string (v : JsVal) (literal : string) : bool :=
  match v with
  | JStr s => String.eqb s literal
  | _ => false
  end.

(** [Array.isArray(v)] *)
Definition isArray (v : JsVal) : bool :=
  match v with
  | JArr _ => true
  | _ => false
  end.

(** [v === n] for a literal natural number [n]. *)
Definition is_number (v : JsVal) (n : nat) : bool :=
  match v with
  | JNum (Fin q) => Qeq_bool q (inject_Z (Z.of_nat n))
  | _ => false
  end.

(** Short-circuit conjunction of two tests, the second evaluated only when
    the first holds. *)
Definition and_then (a b : Exc bool) : Exc bool :=
  x <- a ;; if x then b else Ok false.
Infix "&&&" := and_then (at level 40, left associativity) : js_scope.

(** Short-circuit disjunction. *)
Definition or_test (a b : Exc bool) : Exc bool :=
  x <- a ;; if x then Ok true else b.
Infix "|||" := or_test (at level 50, left associativity) : js_scope.

(** The elements of an array value. *)
Definition elements (v : JsVal) : list JsVal :=
  match v with
  | JArr elems => elems
  | _ => []
  end.

Definition get2 (v : JsVal) (k1 k2 : string) : Exc JsVal :=
  x <- get v k1 ;; get x k2.

(** [Array.prototype.filter], [map] and [reduce] with callbacks that may
    throw. *)
Fixpoint filterM (p : JsVal -> Exc bool) (l : list JsVal)
  : Exc (list JsVal) :=
  match l with
  | [] => Ok []
  | x :: rest =>
      keep <- p x ;;
      rest' <- filterM p rest ;;
      Ok (if keep then x :: rest' else rest')
  end.

Fixpoint mapM (f : JsVal -> Exc JsVal) (l : list JsVal)
  : Exc (list JsVal) :=
  match l with
  | [] => Ok []
  | x :: rest =>
      y <- f x ;;
      rest' <- mapM f rest ;;
      Ok (y :: rest')
  end.

Fixpoint reduceM (f : JsVal -> JsVal -> Exc JsVal) (l : list JsVal)
  (init : JsVal) : Exc JsVal :=
  match l with
  | [] => Ok init
  | x :: rest => acc <- f init x ;; reduceM f rest acc
  end.

(* ===================================================================== *)
(** ** The host and the clustering package *)
(* ===================================================================== *)

(** Conversions supplied by the JavaScript engine: [ToString] of a value
    that is not already a string, the numeric value of a string, and
    [new Date(t).toLocaleString('en-US', ...)], which may throw. *)
Class Host : Type := {
  ToString : JsVal -> string;
  StringToNumber : string -> number;
  toLocaleString : JsVal -> Exc string
}.

(** Options passed to [new Supercluster(...)]. The reducer updates its
    accumulator in place; here it returns the updated accumulator. *)
Record Options : Type := {
  radius : number;
  maxZoom : number;
  minZoom : number;
  map : JsVal -> Exc JsVal;
  reduce : JsVal -> JsVal -> Exc JsVal
}.

(** The operations of the [supercluster] package that the code calls.
    Each may throw; [load] returns the index it has filled. *)
Class Supercluster : Type := {
  Index : Type;
  create : Options -> Exc Index;
  load : Index -> list JsVal -> Exc Index;
  getClusters : Index -> list JsVal -> number -> Exc (list JsVal);
  getLeaves : Index -> JsVal -> nat -> Exc (list JsVal)
}.

(** A viewport object: the outcome of each of its four accessors.  A
    missing object or accessor is an accessor that throws. *)
Record Bounds : Type := {
  getWest : Exc JsVal;
  getSouth : Exc JsVal;
  getEast : Exc JsVal;
  getNorth : Exc JsVal
}.

Section Coercions.
Context {host : Host}.

Definition to_string (v : JsVal) : string :=
  match v with
  | JStr s => s
  | other => ToString other
  end.

Definition ToNumber (v : JsVal) : number :=
  match v with
  | JUndefined => NaN
  | JNull => Fin 0
  | JBool b => Fin (if b then 1 else 0)
  | JNum n => n
  | JStr s => StringToNumber s
  | other => StringToNumber (ToString other)
  end.

(** Whether [ToPrimitive] of the value is a string. *)
Definition stringy (v : JsVal) : bool :=
  match v with
  | JStr _ | JArr _ | JObj _ => true
  | _ => false
  end.

(** [a + b] *)
Definition js_add (a b : JsVal) : JsVal :=
  if stringy a || stringy b
  then JStr (to_string a ++ to_string b)
  else JNum (Num.add (ToNumber a) (ToNumber b)).

(** [a * b] and [a / b] *)
Definition js_mul (a b : JsVal) : JsVal :=
  JNum (Num.mul (ToNumber a) (ToNumber b)).
Definition js_div (a b : JsVal) : JsVal :=
  JNum (Num.div (ToNumber a) (ToNumber b)).

(** [a || b] with [b] evaluated only when [a] is falsy. *)
Definition or_else (a : JsVal) (b : Exc JsVal) : Exc JsVal :=
  if truthy a then Ok a else b.

(** [v >= n] against a numeric literal. *)
Definition ge_literal (v : JsVal) (n : Q) : bool :=
  Num.geb (ToNumber v) (Fin n).

End Coercions.

(* ===================================================================== *)
(** ** mapUtils *)
(* ===================================================================== *)

Section MapUtils.
Context {host : Host}.

(** [getMagnitudeColor(magnitude)] *)
Definition getMagnitudeColor (magnitude : JsVal) : string :=
  if ge_literal magnitude 7 then "#d32f2f"
  else if ge_literal magnitude 6 then "#f57c00"
  else if ge_literal magnitude 5 then "#ffa000"
  else if ge_literal magnitude 4 then "#fbc02d"
  else "#7cb342".

(** [formatDate(timestamp)] *)
Definition formatDate (timestamp : JsVal) : Exc JsVal :=
  try_catch
    (s <- toLocaleString timestamp ;; Ok (JStr s))
    (fun _ => Ok (JStr "Date unavailable")).

(** The predicate passed to [earthquakes.filter] (lines 37-46). *)
Definition valid_feature (feature : JsVal) : Exc bool :=
  Ok (truthy feature)
  &&& (t <- get feature "type" ;; Ok (is_string t "Feature"))
  &&& (g <- get feature "geometry" ;;
       t <- get_opt g "type" ;;
       Ok (is_string t "Point"))
  &&& (c <- get2 feature "geometry" "coordinates" ;; Ok (isArray c))
  &&& (c <- get2 feature "geometry" "coordinates" ;;
       n <- get c "length" ;;
       Ok (is_number n 3))
  &&& (p <- get feature "properties" ;;
       m <- get_opt p "mag" ;;
       Ok (not_nullish m))
  &&& (p <- get feature "properties" ;;
       x <- get_opt p "place" ;;
       Ok (truthy x))
  &&& (p <- get feature "properties" ;;
       x <- get_opt p "time" ;;
       Ok (truthy x)).

(** The [map] option: the properties kept for every indexed point. *)
Definition map_props (props : JsVal) : Exc JsVal :=
  mag <- get props "mag" ;;
  time <- get props "time" ;;
  place <- get props "place" ;;
  d <- get props "depth" ;;
  depth <- or_else d (Ok (JNum (Fin 0))) ;;
  id <- get props "id" ;;
  Ok (JObj [("mag", mag); ("time", time); ("place", place);
            ("depth", depth); ("id", id)]).

(** The [reduce] option: folds the properties of one more point into the
    accumulator of a cluster. *)
Definition reduce_props (acc props : JsVal) : Exc JsVal :=
  am <- get acc "mag" ;;
  ac <- get acc "count" ;;
  pm <- get props "mag" ;;
  ac' <- get acc "count" ;;
  acc <- set acc "mag"
           (js_div (js_add (js_mul am ac) pm) (js_add ac' (JNum (Fin 1)))) ;;
  ad <- get acc "depth" ;;
  ac <- get acc "count" ;;
  pd <- get props "depth" ;;
  d <- or_else pd (Ok (JNum (Fin 0))) ;;
  ac' <- get acc "count" ;;
  set acc "depth"
    (js_div (js_add (js_mul ad ac) d) (js_add ac' (JNum (Fin 1)))).

Definition options : Options := {|
  radius := Fin 60;
  maxZoom := Fin 16;
  minZoom := Fin 0;
  map := map_props;
  reduce := reduce_props
|}.

(** The display record built from a point feature (lines 89-98 and
    107-116). *)
Definition single_earthquake (cluster : JsVal) : Exc JsVal :=
  pid <- get2 cluster "properties" "id" ;;
  id <- or_else pid (get cluster "id") ;;
  magnitude <- get2 cluster "properties" "mag" ;;
  location <- get2 cluster "properties" "place" ;;
  coordinates <- get2 cluster "geometry" "coordinates" ;;
  c <- get2 cluster "geometry" "coordinates" ;;
  depth <- get_index c 2 ;;
  t <- get2 cluster "properties" "time" ;;
  time <- formatDate t ;;
  timestamp <- get2 cluster "properties" "time" ;;
  url <- get2 cluster "properties" "url" ;;
  Ok (JObj [("id", id); ("magnitude", magnitude); ("location", location);
            ("coordinates", coordinates); ("depth", depth); ("time", time);
            ("timestamp", timestamp); ("url", url)]).

Definition leaf_point (leaf : JsVal) : Exc JsVal :=
  id <- get2 leaf "properties" "id" ;;
  magnitude <- get2 leaf "properties" "mag" ;;
  location <- get2 leaf "properties" "place" ;;
  coordinates <- get2 leaf "geometry" "coordinates" ;;
  c <- get2 leaf "geometry" "coordinates" ;;
  depth <- get_index c 2 ;;
  t <- get2 leaf "properties" "time" ;;
  time <- formatDate t ;;
  timestamp <- get2 leaf "properties" "time" ;;
  url <- get2 leaf "properties" "url" ;;
  Ok (JObj [("id", id); ("magnitude", magnitude); ("location", location);
            ("coordinates", coordinates); ("depth", depth); ("time", time);
            ("timestamp", timestamp); ("url", url)]).

(** [points.reduce((sum, p) => sum + p.k, 0) / points.length] *)
Definition sample_mean (k : string) (points : list JsVal) : Exc JsVal :=
  total <- reduceM (fun sum p => x <- get p k ;; Ok (js_add sum x))
             points (JNum (Fin 0)) ;;
  Ok (js_div total (JNum (of_nat (List.length points)))).

Context {sc : Supercluster}.

(** The callback of [clusters.map] (lines 84-126). *)
Definition marker_of (index : Index) (cluster : JsVal) : Exc JsVal :=
  is_cluster <- get2 cluster "properties" "cluster" ;;
  if negb (truthy is_cluster) then
    earthquake <- single_earthquake cluster ;;
    coordinates <- get2 cluster "geometry" "coordinates" ;;
    magnitude <- get2 cluster "properties" "mag" ;;
    c <- get2 cluster "geometry" "coordinates" ;;
    depth <- get_index c 2 ;;
    Ok (JObj [("type", JStr "single"); ("earthquake", earthquake);
              ("coordinates", coordinates); ("magnitude", magnitude);
              ("depth", depth)])
  else
    cluster_id <- get2 cluster "properties" "cluster_id" ;;
    leaves <- getLeaves index cluster_id 10 ;;
    points <- mapM leaf_point leaves ;;
    coordinates <- get2 cluster "geometry" "coordinates" ;;
    count <- get2 cluster "properties" "point_count" ;;
    mag <- get2 cluster "properties" "mag" ;;
    avgMagnitude <- or_else mag (sample_mean "magnitude" points) ;;
    dep <- get2 cluster "properties" "depth" ;;
    avgDepth <- or_else dep (sample_mean "depth" points) ;;
    Ok (JObj [("type", JStr "cluster"); ("coordinates", coordinates);
              ("count", count); ("avgMagnitude", avgMagnitude);
              ("avgDepth", avgDepth); ("points", JArr points)]).

(** The body of the [try] block (lines 36-126), for a non-empty array. *)
Definition cluster_markers_body (earthquakes : list JsVal)
  (bounds : Bounds) (zoom : JsVal) : Exc (list JsVal) :=
  validFeatures <- filterM valid_feature earthquakes ;;
  if Nat.eqb (List.length validFeatures) 0 then Ok []
  else
    index <- create options ;;
    index <- load index validFeatures ;;
    west <- getWest bounds ;;
    south <- getSouth bounds ;;
    east <- getEast bounds ;;
    north <- getNorth bounds ;;
    clusters <- getClusters index [west; south; east; north]
                  (Num.floor (ToNumber zoom)) ;;
    markers <- mapM (marker_of index) clusters ;;
    Ok (filter truthy markers).

(** [createClusterMarkers(earthquakes, bounds, zoom)] *)
Definition createClusterMarkers (earthquakes : JsVal) (bounds : Bounds)
  (zoom : JsVal) : Exc (list JsVal) :=
  nothing <- Ok (negb (truthy earthquakes))
             ||| Ok (negb (isArray earthquakes))
             ||| (n <- get earthquakes "length" ;; Ok (is_number n 0)) ;;
  if nothing then Ok []
  else
    try_catch (cluster_markers_body (elements earthquakes) bounds zoom)
              (fun _ => Ok []).

End MapUtils.

Section MarkerElement.
Context {host : Host}.

(** [Math.max(a, b)] and [Math.min(a, b)] *)
Definition Math_max (a b : JsVal) : JsVal :=
  JNum (Num.max (ToNumber a) (ToNumber b)).
Definition Math_min (a b : JsVal) : JsVal :=
  JNum (Num.min (ToNumber a) (ToNumber b)).

(** The [size] constant of each branch of [createMarkerElement]. *)
Definition single_size (data : JsVal) : Exc JsVal :=
  m <- get data "magnitude" ;;
  Ok (Math_max (JNum (Fin 20)) (js_mul m (JNum (Fin 5)))).

Definition cluster_size (data : JsVal) : Exc JsVal :=
  c <- get data "count" ;;
  Ok (Math_min (Math_max (JNum (Fin 30)) c) (JNum (Fin 60))).

(** [`${size}px`] *)
Definition px (size : JsVal) : JsVal := JStr (to_string size ++ "px").

(** [createMarkerElement(type, data)]: the [div] element with the
    properties the function assigns. *)
Definition createMarkerElement (type data : JsVal) : Exc JsVal :=
  if is_string type "single" then
    size <- single_size data ;;
    m <- get data "magnitude" ;;
    Ok (JObj [("tagName", JStr "DIV");
              ("className", JStr "earthquake-marker");
              ("style", JObj [("width", px size);
                              ("height", px size);
                              ("borderRadius", JStr "50%");
                              ("backgroundColor",
                                JStr (getMagnitudeColor m));
                              ("border", JStr "2px solid white");
                              ("cursor", JStr "pointer");
                              ("boxShadow",
                                JStr "0 0 5px rgba(0,0,0,0.3)")])])
  else
    size <- cluster_size data ;;
    m <- get data "avgMagnitude" ;;
    c <- get data "count" ;;
    Ok (JObj [("tagName", JStr "DIV");
              ("className", JStr "cluster-marker");
              ("style", JObj [("width", px size);
                              ("height", px size);
                              ("borderRadius", JStr "50%");
                              ("backgroundColor",
                                JStr (getMagnitudeColor m));
                              ("border", JStr "3px solid white");
                              ("color", JStr "white");
                              ("textAlign", JStr "center");
                              ("lineHeight", px size);
                              ("cursor", JStr "pointer");
                              ("boxShadow",
                                JStr "0 0 5px rgba(0,0,0,0.5)");
                              ("fontWeight", JStr "bold")]);
              ("textContent", JStr (to_string c))]).

End MarkerElement.

(* ===================================================================== *)
(** ** Definitions that follow the specification's words *)
(* ===================================================================== *)

Module Spec.

(** The validity invariant of a point feature: a coordinate pair of two
    or more elements, a non-null magnitude, a non-empty place string and
    a non-null time. *)
Definition valid (feature : JsVal) : bool :=
  match get2 feature "geometry" "coordinates",
        get2 feature "properties" "mag",
        get2 feature "properties" "place",
        get2 feature "properties" "time" with
  | Ok (JArr coords), Ok mag, Ok (JStr place), Ok time =>
      Nat.leb 2 (List.length coords) && not_nullish mag
      && negb (String.eqb place "") && not_nullish time
  | _, _, _, _ => false
  end.

(** The rows of the banding table, calmest first. *)
Definition severity (color : string) : nat :=
  if String.eqb color "#d32f2f" then 4
  else if String.eqb color "#f57c00" then 3
  else if String.eqb color "#ffa000" then 2
  else if String.eqb color "#fbc02d" then 1
  else 0.

(** [clamp(x, lo, hi)] *)
Definition clamp (x lo hi : Q) : Q :=
  if Qle_bool x lo then lo else if Qle_bool hi x then hi else x.

(** The greater of two rationals. *)
Definition larger (x y : Q) : Q := if Qle_bool x y then y else x.

Definition sum (l : list Q) : Q := fold_right Qplus 0 l.

(** [(m1 + ... + mn) / n] *)
Definition arithmetic_mean (l : list Q) : Q :=
  sum l / inject_Z (Z.of_nat (List.length l)).

End Spec.

(* ===================================================================== *)
(** ** Points as the reducer receives them *)
(* ===================================================================== *)

(** The properties of a point with a numeric magnitude and depth. *)
Definition point_props (md : Q * Q) : JsVal :=
  JObj [("mag", JNum (Fin (fst md))); ("depth", JNum (Fin (snd md)))].

(* ===================================================================== *)
(** ** What the code relies on from the clustering package *)
(* ===================================================================== *)

Section Descriptors.
Context {host : Host} {sc : Supercluster}.

(** The two shapes of marker that [marker_of] builds from a node. *)
Definition single_marker_of (node d : JsVal) : Prop :=
  exists earthquake coordinates magnitude depth,
    single_earthquake node = Ok earthquake
    /\ get2 node "geometry" "coordinates" = Ok coordinates
    /\ get2 node "properties" "mag" = Ok magnitude
    /\ get_index coordinates 2 = Ok depth
    /\ d = JObj [("type", JStr "single"); ("earthquake", earthquake);
                 ("coordinates", coordinates); ("magnitude", magnitude);
                 ("depth", depth)].

Definition cluster_marker_of (i : Index) (node d : JsVal) : Prop :=
  exists id leaves points coordinates count mag avgMagnitude dep avgDepth,
    get2 node "properties" "cluster_id" = Ok id
    /\ getLeaves i id 10 = Ok leaves
    /\ mapM leaf_point leaves = Ok points
    /\ get2 node "geometry" "coordinates" = Ok coordinates
    /\ get2 node "properties" "point_count" = Ok count
    /\ get2 node "properties" "mag" = Ok mag
    /\ or_else mag (sample_mean "magnitude" points) = Ok avgMagnitude
    /\ get2 node "properties" "depth" = Ok dep
    /\ or_else dep (sample_mean "depth" points) = Ok avgDepth
    /\ d = JObj [("type", JStr "cluster"); ("coordinates", coordinates);
                 ("count", count); ("avgMagnitude", avgMagnitude);
                 ("avgDepth", avgDepth); ("points", JArr points)].

End Descriptors.

(** A node that the index itself has built for a group of loaded
    features: it is flagged, carries an identifier and its member count,
    which is at least two, and [getLeaves] returns members of it, as many
    as the limit allows. *)
Definition cluster_node {sc : Supercluster} (i : Index)
  (loaded : list JsVal) (node : JsVal) : Prop :=
  exists (n : nat) (id : JsVal),
    get2 node "properties" "cluster" = Ok (JBool true)
    /\ get2 node "properties" "cluster_id" = Ok id
    /\ get2 node "properties" "point_count" = Ok (JNum (of_nat n))
    /\ (2 <= n)%nat
    /\ forall limit : nat,
         exists leaves,
           getLeaves i id limit = Ok leaves
           /\ List.length leaves = Nat.min limit n
           /\ incl leaves loaded.

(** The documented behaviour of [supercluster] that the marker code takes
    for granted: every node of a query is either one of the loaded
    features, returned as it is, or a cluster node. *)
Class SuperclusterContract (sc : Supercluster) : Prop := {
  node_kinds :
    forall opts loaded i0 i bbox z nodes node,
      create opts = Ok i0 -> load i0 loaded = Ok i ->
      getClusters i bbox z = Ok nodes -> In node nodes ->
      In node loaded \/ cluster_node i loaded node
}.

(** Whether a feature carries a truthy [cluster] property of its own, the
    flag by which the marker code tells clusters from points. *)
Definition flags_cluster (feature : JsVal) : bool :=
  match get2 feature "properties" "cluster" with
  | Ok flag => truthy flag
  | Throw _ => false
  end.

(** An accumulator that holds the given averages and count. *)
Definition aggregate_of (acc : JsVal) (mag depth : Q) (n : nat) : Prop :=
  exists ps m d c,
    acc = JObj ps
    /\ lookup "mag" ps = Some (JNum (Fin m)) /\ m == mag
    /\ lookup "depth" ps = Some (JNum (Fin d)) /\ d == depth
    /\ lookup "count" ps = Some (JNum (Fin c))
    /\ c == inject_Z (Z.of_nat n).

(* ===================================================================== *)
(** ** A host and an index to run the code on *)
(* ===================================================================== *)

Module Demo.

Definition digits (z : Z) : string :=
  NilZero.string_of_int (Z.to_int z).

(** A host whose numbers print as integers or as [n/d] fractions and
    whose dates print as their timestamp. *)
#[export] Instance host : Host := {|
  ToString v :=
    match v with
    | JUndefined => "undefined"
    | JNull => "null"
    | JBool true => "true"
    | JBool false => "false"
    | JNum NaN => "NaN"
    | JNum PosInf => "Infinity"
    | JNum NegInf => "-Infinity"
    | JNum (Fin q) =>
        let r := Qred q in
        if Pos.eqb (Qden r) 1 then digits (Qnum r)
        else digits (Qnum r) ++ "/" ++ digits (Zpos (Qden r))
    | JStr s => s
    | JArr _ => ""
    | JObj _ => "[object Object]"
    end;
  StringToNumber s := if String.eqb s "" then Fin 0 else NaN;
  toLocaleString v :=
    match v with
    | JNum (Fin q) => Ok ("t" ++ digits (Qfloor q))
    | _ => Ok "Invalid Date"
    end
|}.

(** The properties of a cluster node: the mapped properties of the first
    member, every other member reduced into them, then the package's own
    fields. *)
Definition cell_properties (opts : Options) (members : list JsVal)
  : Exc JsVal :=
  match members with
  | [] => Ok (JObj [])
  | p :: rest =>
      props <- get p "properties" ;;
      acc <- map opts props ;;
      acc <- reduceM (fun acc q =>
                        qp <- get q "properties" ;;
                        m <- map opts qp ;;
                        reduce opts acc m) rest acc ;;
      Ok (JObj (("cluster", JBool true)
                :: ("cluster_id", JNum (Fin 1))
                :: ("point_count", JNum (of_nat (List.length members)))
                :: match acc with JObj ps => ps | _ => [] end))
  end.

(** An index with a single cell that covers the whole map: one loaded
    feature is returned as it is, two or more form one cluster. *)
#[export] Instance one_cell : Supercluster := {|
  Index := Options * list JsVal;
  create opts := Ok (opts, []);
  load i fs := Ok (fst i, fs);
  getClusters i bbox z :=
    match snd i with
    | [] => Ok []
    | [p] => Ok [p]
    | p :: rest =>
        props <- cell_properties (fst i) (p :: rest) ;;
        c <- get2 p "geometry" "coordinates" ;;
        Ok [JObj [("type", JStr "Feature"); ("id", JNum (Fin 1));
                  ("properties", props);
                  ("geometry",
                    JObj [("type", JStr "Point");
                          ("coordinates", JArr (firstn 2 (elements c)))])]]
    end;
  getLeaves i id limit := Ok (firstn limit (snd i))
|}.

(** An index whose every operation fails. *)
Definition broken : Supercluster := {|
  Index := unit;
  create opts := Throw (JStr "no index");
  load i fs := Throw (JStr "no index");
  getClusters i bbox z := Throw (JStr "no index");
  getLeaves i id limit := Throw (JStr "no index")
|}.

Definition feature (id : string) (lng lat depth mag : Q) (place : string)
  (time : Q) : JsVal :=
  JObj [("type", JStr "Feature");
        ("id", JStr id);
        ("properties",
          JObj [("mag", JNum (Fin mag)); ("place", JStr place);
                ("time", JNum (Fin time));
                ("url", JStr ("https://earthquake.usgs.gov/" ++ id))]);
        ("geometry",
          JObj [("type", JStr "Point");
                ("coordinates",
                  JArr [JNum (Fin lng); JNum (Fin lat);
                        JNum (Fin depth)])])].

Definition tokyo : JsVal :=
  feature "us1000" (1397 # 10) (357 # 10) 30 (61 # 10) "Tokyo" 1700000000000.
Definition chiba : JsVal :=
  feature "us1001" (1401 # 10) (356 # 10) 12 (47 # 10) "Chiba" 1700000100000.
Definition kanto : JsVal :=
  feature "us1002" (1399 # 10) (359 # 10) 45 (52 # 10) "Kanto" 1700000200000.

(** A feature with a coordinate pair only. *)
Definition flat : JsVal :=
  JObj [("type", JStr "Feature");
        ("id", JStr "us2000");
        ("properties",
          JObj [("mag", JNum (Fin 5)); ("place", JStr "Lima");
                ("time", JNum (Fin 1700000000000))]);
        ("geometry",
          JObj [("type", JStr "Point");
                ("coordinates", JArr [JNum (Fin (-77)); JNum (Fin (-12))])])].

(** A feature without a place. *)
Definition nameless : JsVal :=
  JObj [("type", JStr "Feature");
        ("id", JStr "us3000");
        ("properties",
          JObj [("mag", JNum (Fin 5)); ("time", JNum (Fin 1700000000000))]);
        ("geometry",
          JObj [("type", JStr "Point");
                ("coordinates",
                  JArr [JNum (Fin 10); JNum (Fin 10); JNum (Fin 10)])])].

Definition world : Bounds := {|
  getWest := Ok (JNum (Fin (-180)));
  getSouth := Ok (JNum (Fin (-85)));
  getEast := Ok (JNum (Fin 180));
  getNorth := Ok (JNum (Fin 85))
|}.

(** A viewport that is missing: every accessor throws. *)
Definition no_bounds : Bounds := {|
  getWest := Throw TypeError;
  getSouth := Throw TypeError;
  getEast := Throw TypeError;
  getNorth := Throw TypeError
|}.

Definition quakes : JsVal := JArr [tokyo; chiba; kanto].

Definition zoom : JsVal := JNum (Fin (5 # 2)).

(** The markers of three nearby earthquakes, and of one alone. *)
Definition cluster_markers : list JsVal :=
  Eval vm_compute in
    match createClusterMarkers quakes world zoom with
    | Ok markers => markers
    | Throw _ => []
    end.

Definition cluster_marker : JsVal := nth 0 cluster_markers JUndefined.

Definition single_markers : list JsVal :=
  Eval vm_compute in
    match createClusterMarkers (JArr [tokyo]) world zoom with
    | Ok markers => markers
    | Throw _ => []
    end.

Definition single_marker : JsVal := nth 0 single_markers JUndefined.

End Demo.

(* ===================================================================== *)
(** ** The features that pass validation, declaratively *)
(* ===================================================================== *)

(** A [Feature] object with a [Point] geometry of exactly three
    coordinates, a magnitude that is neither null nor undefined, a truthy
    place and a truthy time. *)
Definition well_formed_feature (feature : JsVal) : Prop :=
  exists ps gps pps a b c mag place time,
    feature = JObj ps
    /\ lookup "type" ps = Some (JStr "Feature")
    /\ lookup "geometry" ps = Some (JObj gps)
    /\ lookup "type" gps = Some (JStr "Point")
    /\ lookup "coordinates" gps = Some (JArr [a; b; c])
    /\ lookup "properties" ps = Some (JObj pps)
    /\ lookup "mag" pps = Some mag /\ not_nullish mag = true
    /\ lookup "place" pps = Some place /\ truthy place = true
    /\ lookup "time" pps = Some time /\ truthy time = true.

(* ===================================================================== *)
(** ** Popups, legend and list: further arithmetic and engine services *)
(* ===================================================================== *)

Module NumX.

(** [-a] and [a - b] *)
Definition neg (a : number) : number :=
  match a with
  | NaN => NaN
  | PosInf => NegInf
  | NegInf => PosInf
  | Fin q => Fin (- q)
  end.

Definition sub (a b : number) : number := Num.add a (neg b).

(** [a < b]; false when either side is NaN. *)
Definition ltb (a b : number) : bool :=
  match a, b with
  | NaN, _ | _, NaN => false
  | _, _ => negb (Num.leb b a)
  end.

End NumX.

(** [Number.prototype.toFixed], supplied by the engine. *)
Class NumberFormat : Type := {
  toFixed : number -> nat -> string
}.

(** The double quote character. *)
Definition dq : string :=
  String (Ascii.Ascii false true false false false true false false)
    EmptyString.

(** [new Error(message)] *)
Definition Error (message : string) : JsVal :=
  JObj [("name", JStr "Error"); ("message", JStr message)].

(** [typeof v === 'undefined'] *)
Definition is_undefined (v : JsVal) : bool :=
  match v with
  | JUndefined => true
  | _ => false
  end.

(** The text of the template literals of [createPopupContent] and
    [createLegend], with their interpolated values as parameters. *)
Definition detail_link_html (url : string) : string :=
  "
            <a href="
  ++ dq
  ++ url
  ++ dq
  ++ " 
               target="
  ++ dq
  ++ "_blank"
  ++ dq
  ++ " 
               rel="
  ++ dq
  ++ "noopener noreferrer"
  ++ dq
  ++ "
               style="
  ++ dq
  ++ "display: inline-block; margin-top: 8px; color: #2196F3; text-decoration: none; font-size: 13px;"
  ++ dq
  ++ ">
              More details →
            </a>
          ".

Definition single_popup_html (color magnitude location depth time link : string) : string :=
  "
        <div class="
  ++ dq
  ++ "earthquake-popup"
  ++ dq
  ++ ">
          <h3 style="
  ++ dq
  ++ "margin: 0 0 8px 0; color: "
  ++ color
  ++ ";"
  ++ dq
  ++ ">
            M"
  ++ magnitude
  ++ "
          </h3>
          <p style="
  ++ dq
  ++ "margin: 4px 0; font-size: 14px;"
  ++ dq
  ++ ">
            "
  ++ location
  ++ "
          </p>
          <p style="
  ++ dq
  ++ "margin: 4px 0; font-size: 13px; color: #666;"
  ++ dq
  ++ ">
            Depth: "
  ++ depth
  ++ " km
          </p>
          <p style="
  ++ dq
  ++ "margin: 4px 0; font-size: 13px; color: #666;"
  ++ dq
  ++ ">
            Time: "
  ++ time
  ++ "
          </p>
          "
  ++ link
  ++ "
        </div>
      ".

Definition cluster_row_html (color magnitude location time : string) : string :=
  "
              <div style="
  ++ dq
  ++ "margin-bottom: 8px;"
  ++ dq
  ++ ">
                <div style="
  ++ dq
  ++ "font-weight: 500; font-size: 13px; color: "
  ++ color
  ++ ";"
  ++ dq
  ++ ">
                  M"
  ++ magnitude
  ++ "
                </div>
                <div style="
  ++ dq
  ++ "font-size: 12px;"
  ++ dq
  ++ ">"
  ++ location
  ++ "</div>
                <div style="
  ++ dq
  ++ "font-size: 12px; color: #666;"
  ++ dq
  ++ ">"
  ++ time
  ++ "</div>
              </div>
            ".

Definition more_html (remaining : string) : string :=
  "
              <p style="
  ++ dq
  ++ "margin: 8px 0 0 0; font-size: 12px; color: #666;"
  ++ dq
  ++ ">
                ...and "
  ++ remaining
  ++ " more earthquakes
              </p>
            ".

Definition cluster_list_html (rows more : string) : string :=
  "
          <div style="
  ++ dq
  ++ "border-top: 1px solid #eee; padding-top: 8px;"
  ++ dq
  ++ ">
            <h4 style="
  ++ dq
  ++ "margin: 0 0 8px 0; font-size: 13px;"
  ++ dq
  ++ ">Recent earthquakes in this cluster:</h4>
            "
  ++ rows
  ++ "
            "
  ++ more
  ++ "
          </div>
        ".

Definition cluster_popup_html (count avgMagnitude avgDepth list : string) : string :=
  "
      <div class="
  ++ dq
  ++ "cluster-popup"
  ++ dq
  ++ ">
        <h3 style="
  ++ dq
  ++ "margin: 0 0 8px 0;"
  ++ dq
  ++ ">Earthquake Cluster</h3>
        <p style="
  ++ dq
  ++ "margin: 4px 0; font-size: 14px;"
  ++ dq
  ++ ">
          Contains "
  ++ count
  ++ " earthquakes
        </p>
        <p style="
  ++ dq
  ++ "margin: 4px 0; font-size: 13px; color: #666;"
  ++ dq
  ++ ">
          Average magnitude: "
  ++ avgMagnitude
  ++ "
        </p>
        <p style="
  ++ dq
  ++ "margin: 4px 0 12px 0; font-size: 13px; color: #666;"
  ++ dq
  ++ ">
          Average depth: "
  ++ avgDepth
  ++ " km
        </p>
        "
  ++ list
  ++ "
      </div>
    ".

Definition error_popup_html : string :=
  "
      <div style="
  ++ dq
  ++ "padding: 12px;"
  ++ dq
  ++ ">
        <p style="
  ++ dq
  ++ "color: #f44336;"
  ++ dq
  ++ ">Error displaying earthquake information</p>
      </div>
    ".

Definition legend_css : string :=
  "
    position: absolute;
    bottom: 30px;
    right: 10px;
    background: white;
    padding: 10px;
    border-radius: 4px;
    box-shadow: 0 1px 4px rgba(0,0,0,0.2);
    font-size: 12px;
    z-index: 1;
  ".

Definition legend_row_html (color value : string) : string :=
  "
      <div style="
  ++ dq
  ++ "display: flex; align-items: center; margin: 3px 0;"
  ++ dq
  ++ ">
        <div style="
  ++ dq
  ++ "
          width: 12px;
          height: 12px;
          border-radius: 50%;
          background: "
  ++ color
  ++ ";
          margin-right: 5px;
          border: 1px solid rgba(0,0,0,0.2);
        "
  ++ dq
  ++ "></div>
        <span>"
  ++ value
  ++ "</span>
      </div>
    ".

Definition legend_html (rows : string) : string :=
  "
    <div style="
  ++ dq
  ++ "margin-bottom: 5px;"
  ++ dq
  ++ "><strong>Magnitude Scale</strong></div>
    "
  ++ rows
  ++ "
  ".

Section Popup.
Context {host : Host} {fmt : NumberFormat}.

(** [a - b] *)
Definition js_sub (a b : JsVal) : JsVal :=
  JNum (NumX.sub (ToNumber a) (ToNumber b)).

(** [v > n] against a numeric literal. *)
Definition gt_literal (v : JsVal) (n : Q) : bool :=
  NumX.ltb (Fin n) (ToNumber v).

(** [v.toFixed(digits)]: only numbers have the method. *)
Definition call_toFixed (v : JsVal) (digits : nat) : Exc JsVal :=
  match v with
  | JNum n => Ok (JStr (toFixed n digits))
  | _ => Throw TypeError
  end.

(** [strings.join('')]: undefined and null elements count as empty. *)
Definition join_empty (l : list JsVal) : string :=
  String.concat ""
    (List.map (fun v => match v with
                        | JUndefined | JNull => ""
                        | other => to_string other
                        end) l).

(** [v ? v.toFixed(1) : '?'] read from property [k] of [data]. *)
Definition fixed_or_unknown (data : JsVal) (k : string) : Exc JsVal :=
  v <- get data k ;;
  if truthy v then v' <- get data k ;; call_toFixed v' 1
  else Ok (JStr "?").

(** The branch of [createPopupContent] for [type === 'single']
    (lines 171-199). *)
Definition single_popup (data : JsVal) : Exc JsVal :=
  e <- get data "earthquake" ;;
  quake <- or_else e (Ok data) ;;
  invalid <- Ok (negb (truthy quake))
             ||| (m <- get quake "magnitude" ;; Ok (is_undefined m)) ;;
  if invalid then Throw (Error "Invalid earthquake data for popup")
  else
    m <- get quake "magnitude" ;;
    color <- Ok (JStr (getMagnitudeColor m)) ;;
    m' <- get quake "magnitude" ;;
    magnitude <- call_toFixed m' 1 ;;
    l <- get quake "location" ;;
    location <- or_else l (Ok (JStr "Location unknown")) ;;
    depth <- fixed_or_unknown quake "depth" ;;
    t <- get quake "time" ;;
    time <- or_else t (Ok (JStr "Time unknown")) ;;
    u <- get quake "url" ;;
    link <- (if truthy u
             then u' <- get quake "url" ;;
                  Ok (JStr (detail_link_html (to_string u')))
             else Ok (JStr "")) ;;
    Ok (JStr (single_popup_html (to_string color) (to_string magnitude)
                (to_string location) (to_string depth) (to_string time)
                (to_string link))).

(** One entry of the list of a cluster popup (lines 225-233). *)
Definition cluster_row (eq : JsVal) : Exc JsVal :=
  m <- get eq "magnitude" ;;
  color <- Ok (JStr (getMagnitudeColor m)) ;;
  m' <- get eq "magnitude" ;;
  magnitude <- call_toFixed m' 1 ;;
  location <- get eq "location" ;;
  time <- get eq "time" ;;
  Ok (JStr (cluster_row_html (to_string color) (to_string magnitude)
              (to_string location) (to_string time))).

(** The cluster branch of [createPopupContent] (lines 202-242). *)
Definition cluster_popup (data : JsVal) : Exc JsVal :=
  invalid <- Ok (negb (truthy data))
             ||| (p <- get data "points" ;; Ok (negb (isArray p)))
             ||| (p <- get data "points" ;;
                  n <- get p "length" ;;
                  Ok (is_number n 0)) ;;
  if invalid then Throw (Error "Invalid cluster data for popup")
  else
    p <- get data "points" ;;
    let points := firstn 5 (elements p) in
    c <- get data "count" ;;
    let remaining := js_sub c (JNum (of_nat (List.length points))) in
    count <- get data "count" ;;
    avgMagnitude <- fixed_or_unknown data "avgMagnitude" ;;
    avgDepth <- fixed_or_unknown data "avgDepth" ;;
    list <- (if Nat.ltb 0 (List.length points)
             then rows <- mapM cluster_row points ;;
                  more <- Ok (JStr (if gt_literal remaining 0
                                    then more_html (to_string remaining)
                                    else "")) ;;
                  Ok (JStr (cluster_list_html (join_empty rows)
                              (to_string more)))
             else Ok (JStr "")) ;;
    Ok (JStr (cluster_popup_html (to_string count) (to_string avgMagnitude)
                (to_string avgDepth) (to_string list))).

(** The body of the [try] block of [createPopupContent]. *)
Definition popup_body (type data : JsVal) : Exc JsVal :=
  if is_string type "single" then single_popup data else cluster_popup data.

(** [createPopupContent(type, data)] *)
Definition createPopupContent (type data : JsVal) : Exc JsVal :=
  try_catch (popup_body type data) (fun _ => Ok (JStr error_popup_html)).

End Popup.

Section Legend.
Context {host : Host}.

(** The [magnitudes] table of [createLegend] (lines 269-275). *)
Definition legend_magnitudes : list JsVal :=
  [JObj [("value", JStr "7.0+");
         ("color", JStr (getMagnitudeColor (JNum (Fin 7))))];
   JObj [("value", JStr "6.0-6.9");
         ("color", JStr (getMagnitudeColor (JNum (Fin 6))))];
   JObj [("value", JStr "5.0-5.9");
         ("color", JStr (getMagnitudeColor (JNum (Fin 5))))];
   JObj [("value", JStr "4.0-4.9");
         ("color", JStr (getMagnitudeColor (JNum (Fin 4))))];
   JObj [("value", JStr "<4.0");
         ("color", JStr (getMagnitudeColor (JNum (Fin 3))))]].

Definition legend_row (m : JsVal) : Exc JsVal :=
  color <- get m "color" ;;
  value <- get m "value" ;;
  Ok (JStr (legend_row_html (to_string color) (to_string value))).

(** [createLegend()]: the [div] element with the properties the function
    assigns. *)
Definition createLegend : Exc JsVal :=
  rows <- mapM legend_row legend_magnitudes ;;
  Ok (JObj [("tagName", JStr "DIV");
            ("className", JStr "map-legend");
            ("style", JObj [("cssText", JStr legend_css)]);
            ("innerHTML", JStr (legend_html (join_empty rows)))]).

End Legend.

(* ===================================================================== *)
(** ** EarthquakeList and Map: the callers *)
(* ===================================================================== *)

Section Callers.
Context {host : Host} {fmt : NumberFormat}.

(** The record that [EarthquakeList] builds from a feature (lines 10-19). *)
Definition list_item (feature : JsVal) : Exc JsVal :=
  id <- get feature "id" ;;
  magnitude <- get2 feature "properties" "mag" ;;
  location <- get2 feature "properties" "place" ;;
  coordinates <- get2 feature "geometry" "coordinates" ;;
  c <- get2 feature "geometry" "coordinates" ;;
  depth <- get_index c 2 ;;
  t <- get2 feature "properties" "time" ;;
  time <- formatDate t ;;
  timestamp <- get2 feature "properties" "time" ;;
  url <- get2 feature "properties" "url" ;;
  Ok (JObj [("id", id); ("magnitude", magnitude); ("location", location);
            ("coordinates", coordinates); ("depth", depth); ("time", time);
            ("timestamp", timestamp); ("url", url)]).

(** The comparator [(a, b) => b.magnitude - a.magnitude]. *)
Definition by_magnitude (a b : JsVal) : Exc JsVal :=
  bm <- get b "magnitude" ;;
  am <- get a "magnitude" ;;
  Ok (js_sub bm am).

(** [Array.prototype.sort] with a comparator, on an array without
    undefined elements: the sort is stable, an element goes after another
    one when the comparator is positive, and NaN counts as 0.  Any stable
    sort gives the same array for a consistent comparator; insertion is
    the one written here. *)
Fixpoint insert_by (cmp : JsVal -> JsVal -> Exc JsVal) (x : JsVal)
  (sorted : list JsVal) : Exc (list JsVal) :=
  match sorted with
  | [] => Ok [x]
  | y :: rest =>
      v <- cmp x y ;;
      if gt_literal v 0
      then rest' <- insert_by cmp x rest ;; Ok (y :: rest')
      else Ok (x :: y :: rest)
  end.

Fixpoint sort_by (cmp : JsVal -> JsVal -> Exc JsVal) (l : list JsVal)
  : Exc (list JsVal) :=
  match l with
  | [] => Ok []
  | x :: rest => sorted <- sort_by cmp rest ;; insert_by cmp x sorted
  end.

(** [sortedEarthquakes] of [EarthquakeList] (lines 9-20); the component
    receives the array that [Map] keeps in its state. *)
Definition sortedEarthquakes (earthquakes : list JsVal)
  : Exc (list JsVal) :=
  items <- mapM list_item earthquakes ;;
  sort_by by_magnitude items.

(** The colour of a row of the list (lines 134-135). *)
Definition list_magnitude_color (magnitude : JsVal) : string :=
  if ge_literal magnitude 6 then "#d32f2f"
  else if ge_literal magnitude 5 then "#f57c00"
  else "#2e7d32".

(** The values a row of the list shows (lines 132-148). *)
Definition list_row (earthquake : JsVal) : Exc JsVal :=
  m <- get earthquake "magnitude" ;;
  color <- Ok (JStr (list_magnitude_color m)) ;;
  m' <- get earthquake "magnitude" ;;
  magnitude <- call_toFixed m' 1 ;;
  time <- get earthquake "time" ;;
  location <- get earthquake "location" ;;
  d <- get earthquake "depth" ;;
  depth <- call_toFixed d 1 ;;
  Ok (JObj [("color", color); ("magnitude", magnitude); ("time", time);
            ("location", location); ("depth", depth)]).

(** What [updateMarkers] of [Map] passes, next to [marker.type], to
    [createMarkerElement] and [createPopupContent] (lines 56-59, 69). *)
Definition marker_data (marker : JsVal) : Exc JsVal :=
  t <- get marker "type" ;;
  if is_string t "single" then get marker "earthquake" else Ok marker.

(** The popup offset of a marker (line 65). *)
Definition popup_offset (marker : JsVal) : Exc JsVal :=
  t <- get marker "type" ;;
  if is_string t "single"
  then m <- get marker "magnitude" ;; Ok (js_mul m (JNum (Fin 5)))
  else Ok (JNum (Fin 30)).

(** The popup that [handleEarthquakeSelect] of [Map] opens for an entry of
    the list (line 150). *)
Definition selected_popup (earthquake : JsVal) : Exc JsVal :=
  createPopupContent (JStr "single") (JObj [("earthquake", earthquake)]).

End Callers.

Module DemoX.

(** A number format that prints as the host of the examples does,
    whatever the number of digits. *)
#[export] Instance format : NumberFormat := {|
  toFixed n digits := to_string (host := Demo.host) (JNum n)
|}.

(** An index that returns, after the loaded features, a node that is
    null. *)
Definition stray : Supercluster := {|
  Index := list JsVal;
  create opts := Ok [];
  load i fs := Ok fs;
  getClusters i bbox z := Ok (i ++ [JNull])%list;
  getLeaves i id limit := Ok []
|}.

End DemoX.

(* ===================================================================== *)
(** ** Predicates used to state further properties *)
(* ===================================================================== *)

(** An accumulator that is an object without a [count] property. *)
Definition countless (acc : JsVal) : Prop :=
  exists ps, acc = JObj ps /\ lookup "count" ps = None.

(** The node's own flag decides the type of its marker. *)
Definition marker_matches (node d : JsVal) : Prop :=
  exists flag,
    get2 node "properties" "cluster" = Ok flag
    /\ get d "type" = Ok (JStr (if truthy flag then "cluster" else "single")).

Module DemoY.

(** The sample of the cluster of the example, and its second point. *)
Definition sample : list JsVal :=
  Eval vm_compute in
    match get Demo.cluster_marker "points" with
    | Ok (JArr l) => l
    | _ => []
    end.

Definition chiba_point : JsVal := nth 1 sample JUndefined.

(** The first feature as the list and as the map show it. *)
Definition tokyo_item : JsVal :=
  Eval vm_compute in
    match list_item (host := Demo.host) Demo.tokyo with
    | Ok item => item
    | Throw _ => JUndefined
    end.

Definition tokyo_quake : JsVal :=
  Eval vm_compute in
    match single_earthquake (host := Demo.host) Demo.tokyo with
    | Ok earthquake => earthquake
    | Throw _ => JUndefined
    end.

Definition tokyo_fields : list (string * JsVal) :=
  match tokyo_quake with
  | JObj ps => ps
  | _ => []
  end.

End DemoY.

Definition is_num (v : JsVal) : bool :=
  match v with
  | JNum _ => true
  | _ => false
  end.

(** The earthquake that a single popup shows, [data.earthquake || data]. *)
Definition popup_quake (data : JsVal) : JsVal :=
  match get data "earthquake" with
  | Ok e => if truthy e then e else data
  | Throw _ => JUndefined
  end.

(** Whether a single popup can format the earthquake: it is there, its
    magnitude is a number, and its depth is a number or falsy. *)
Definition showable (quake : JsVal) : bool :=
  truthy quake
  && match get quake "magnitude", get quake "depth" with
     | Ok m, Ok d => is_num m && (negb (truthy d) || is_num d)
     | _, _ => false
     end.

(** The text a single popup shows for a depth. *)
Definition depth_text {fmt : NumberFormat} (d : JsVal) : string :=
  match d with
  | JNum x => if Num.truthy x then toFixed x 1 else "?"
  | _ => "?"
  end.

(** The text of a single popup before and after its location. *)
Definition before_location (color magnitude : string) : string :=
  "
        <div class="
  ++ dq
  ++ "earthquake-popup"
  ++ dq
  ++ ">
          <h3 style="
  ++ dq
  ++ "margin: 0 0 8px 0; color: "
  ++ color
  ++ ";"
  ++ dq
  ++ ">
            M"
  ++ magnitude
  ++ "
          </h3>
          <p style="
  ++ dq
  ++ "margin: 4px 0; font-size: 14px;"
  ++ dq
  ++ ">
            ".

Definition after_location (depth time link : string) : string :=
  "
          </p>
          <p style="
  ++ dq
  ++ "margin: 4px 0; font-size: 13px; color: #666;"
  ++ dq
  ++ ">
            Depth: "
  ++ depth
  ++ " km
          </p>
          <p style="
  ++ dq
  ++ "margin: 4px 0; font-size: 13px; color: #666;"
  ++ dq
  ++ ">
            Time: "
  ++ time
  ++ "
          </p>
          "
  ++ link
  ++ "
        </div>
      ".

(** The magnitude of a list entry when it is a finite number. *)
Definition magnitude_of (item : JsVal) : option Q :=
  match get item "magnitude" with
  | Ok (JNum (Fin q)) => Some q
  | _ => None
  end.

(** [a] may stand before [b] in a list sorted by falling magnitude. *)
Definition not_smaller (a b : JsVal) : Prop :=
  exists x y, magnitude_of a = Some x /\ magnitude_of b = Some y /\ y <= x.

(** A list entry whose magnitude is a finite number. *)
Definition has_magnitude (item : JsVal) : Prop :=
  exists q, magnitude_of item = Some q.

(* ===================================================================== *)
(** ** EarthquakeFilters: the state of the filter panel *)
(* ===================================================================== *)

Module Filters.

(** [Math.abs] and [Math.ceil] *)
Definition abs (a : number) : number :=
  match a with
  | NaN => NaN
  | PosInf | NegInf => PosInf
  | Fin q => Fin (Qabs q)
  end.

Definition ceil (a : number) : number :=
  match a with
  | Fin q => Fin (inject_Z (Qceiling q))
  | other => other
  end.

(** The largest time value of a date, in milliseconds. *)
Definition max_time : Q := 8640000000000000.

(** The integral part of a rational, towards zero. *)
Definition trunc (q : Q) : Z := Z.quot (Qnum q) (Zpos (Qden q)).

(** The time value of [new Date(t)] for a number [t]; NaN is the time
    value of an invalid date. *)
Definition new_Date (t : number) : number :=
  match t with
  | Fin q => if Qle_bool (Qabs q) max_time then Fin (inject_Z (trunc q))
             else NaN
  | _ => NaN
  end.

(** An entry of the time range buttons; [None] is the [null] of the
    custom range. *)
Record TimeRange : Type := {
  label : string;
  days : option number
}.

Definition time_ranges : list TimeRange :=
  [{| label := "24 Hours"; days := Some (Fin 1) |};
   {| label := "7 Days"; days := Some (Fin 7) |};
   {| label := "30 Days"; days := Some (Fin 30) |};
   {| label := "Custom Range"; days := None |}].

(** The state of the component (lines 163-169).  A date is kept as
    [Some] of its time value; [None] stands for a value that is no date
    object, which is the only falsy thing the fields of the range could
    hold. *)
Record State : Type := {
  minMagnitude : number;
  selectedTimeRange : TimeRange;
  customDays : number;
  range_start : option number;
  range_end : option number
}.

(** The initial state; [now] and [now'] are the two readings of the
    clock. *)
Definition initial (now now' : number) : State := {|
  minMagnitude := Fin 5;
  selectedTimeRange := {| label := "7 Days"; days := Some (Fin 7) |};
  customDays := Fin 7;
  range_start :=
    Some (new_Date
            (NumX.sub now
               (Num.mul (Num.mul (Num.mul (Num.mul (Fin 7) (Fin 24))
                                    (Fin 60)) (Fin 60)) (Fin 1000))));
  range_end := Some (new_Date now')
|}.

(** What the component reports through [onFilterChange]: the minimum
    magnitude and the number of days. *)
Definition Report : Type := (number * number)%type.

(** The debounced effect (lines 174-191): what is reported once the
    timer fires. *)
Definition filter_effect (s : State) : Report :=
  match days (selectedTimeRange s) with
  | None =>
      match range_start s, range_end s with
      | Some start, Some finish =>
          let diffTime := abs (NumX.sub finish start) in
          let diffDays :=
            ceil (Num.div diffTime (Fin (1000 * 60 * 60 * 24))) in
          (minMagnitude s, diffDays)
      | _, _ => (minMagnitude s, customDays s)
      end
  | Some d => (minMagnitude s, d)
  end.

(** [handleTimeRangeChange] (lines 193-198), with what it reports at
    once. *)
Definition handleTimeRangeChange (s : State) (range : TimeRange)
  : State * option Report :=
  ({| minMagnitude := minMagnitude s;
      selectedTimeRange := range;
      customDays := customDays s;
      range_start := range_start s;
      range_end := range_end s |},
   match days range with
   | Some d => Some (minMagnitude s, d)
   | None => None
   end).

(** [handleCustomDateChange] (lines 200-205); a key other than the two of
    the range leaves both untouched. *)
Definition handleCustomDateChange (s : State) (type : string)
  (value : option number) : State :=
  {| minMagnitude := minMagnitude s;
     selectedTimeRange := selectedTimeRange s;
     customDays := customDays s;
     range_start := if String.eqb type "start" then value
                    else range_start s;
     range_end := if String.eqb type "end" then value else range_end s |}.

(** The slider of the magnitude (line 284). *)
Definition magnitude_changed (s : State) (value : number) : State :=
  {| minMagnitude := value;
     selectedTimeRange := selectedTimeRange s;
     customDays := customDays s;
     range_start := range_start s;
     range_end := range_end s |}.

(** The field for the number of days (lines 383-390); [now] is the
    reading of the clock and [value] what [parseInt] made of the text. *)
Definition days_changed (s : State) (now value : number) : State :=
  let finish := new_Date now in
  let start :=
    new_Date
      (NumX.sub finish
         (Num.mul (Num.mul (Num.mul (Num.mul value (Fin 24)) (Fin 60))
                     (Fin 60)) (Fin 1000))) in
  {| minMagnitude := minMagnitude s;
     selectedTimeRange := selectedTimeRange s;
     customDays := value;
     range_start := Some start;
     range_end := Some finish |}.

(** [date.toISOString()], of which only the failure is kept: a value
    that is no date has no such method, and an invalid date makes the
    method throw a RangeError.  The time value stands for the text. *)
Definition RangeError : JsVal := JStr "RangeError".

Definition toISOString (date : option number) : Exc number :=
  match date with
  | None => Throw TypeError
  | Some NaN => Throw RangeError
  | Some time => Ok time
  end.

(** What rendering a state can throw (lines 323-368): the two date fields
    exist for the custom range only, and each shows the text of its date
    (lines 336 and 358). *)
Definition render (s : State) : Exc unit :=
  match days (selectedTimeRange s) with
  | None =>
      start <- toISOString (range_start s) ;;
      finish <- toISOString (range_end s) ;;
      Ok tt
  | Some _ => Ok tt
  end.

(** What the user can do with the panel.  A date field hands over the
    date object built from its text; [parsed] is the number that parsing
    the text gives, NaN when the text is no date.  The date fields and the
    field for the days are on the page for the custom range only; the
    events are not restricted to that here. *)
Inductive Event : Type :=
| MoveSlider (value : number)
| PressRange (range : TimeRange)
| PickDate (type : string) (parsed : number)
| TypeDays (now value : number).

Definition step (s : State) (e : Event) : State :=
  match e with
  | MoveSlider value => magnitude_changed s value
  | PressRange range => fst (handleTimeRangeChange s range)
  | PickDate type parsed =>
      handleCustomDateChange s type (Some (new_Date parsed))
  | TypeDays now value => days_changed s now value
  end.

(** One event: the handler sets the state and the component is rendered
    again.  An exception in the rendering takes the component off the
    page: there is no state any more, no effect runs and nothing is
    reported. *)
Definition after (s : State) (e : Event) : Exc State :=
  let s' := step s e in
  shown <- render s' ;;
  Ok s'.

Fixpoint run (s : State) (events : list Event) : Exc State :=
  match events with
  | [] => Ok s
  | e :: rest => s' <- after s e ;; run s' rest
  end.

(** The state with another number of days in [customDays]. *)
Definition with_customDays (s : State) (value : number) : State :=
  {| minMagnitude := minMagnitude s;
     selectedTimeRange := selectedTimeRange s;
     customDays := value;
     range_start := range_start s;
     range_end := range_end s |}.

End Filters.

Module DemoF.

Definition custom : Filters.TimeRange :=
  {| Filters.label := "Custom Range"; Filters.days := None |}.

Definition clock : number := Fin 1700000000000.

(** The user picks the custom range, moves the slider and types a number
    of days. *)
Definition events : list Filters.Event :=
  [Filters.PressRange custom; Filters.MoveSlider (Fin 6);
   Filters.TypeDays clock (Fin 3)].

Definition state : Filters.State :=
  match Filters.run (Filters.initial clock clock) events with
  | Ok s => s
  | Throw _ => Filters.initial clock clock
  end.

(** The user picks the custom range and clears the start date. *)
Definition cleared : list Filters.Event :=
  [Filters.PressRange custom; Filters.PickDate "start" NaN].

End DemoF.

(* ===================================================================== *)
(** ** Inputs outside what the feed sends *)
(* ===================================================================== *)

Module DemoZ.







End DemoZ.

(* ===================================================================== *)
(** ** Basic facts about the embedding *)
(* ===================================================================== *)

Lemma Qle_bool_reflect (x y : Q) : reflect (x <= y) (Qle_bool x y).
Proof.
  destruct (Qle_bool x y) eqn:E; constructor.
  - now apply Qle_bool_iff.
  - intro H. apply Qle_bool_iff in H. congruence.
Qed.

Lemma Qeq_bool_reflect (x y : Q) : reflect (x == y) (Qeq_bool x y).
Proof.
  destruct (Qeq_bool x y) eqn:E; constructor.
  - now apply Qeq_bool_iff.
  - intro H. apply Qeq_bool_iff in H. congruence.
Qed.

Lemma bind_Ok {A B} (m : Exc A) (k : A -> Exc B) (b : B) :
  bind m k = Ok b -> exists a, m = Ok a /\ k a = Ok b.
Proof. destruct m as [a|e]; simpl; [eauto | discriminate]. Qed.


(** Once a property of a value has been read, any other can be. *)
Lemma get_total (v : JsVal) (k k' : string) (x : JsVal) :
  get v k = Ok x -> exists y, get v k' = Ok y.
Proof.
  destruct v; simpl; try discriminate; intros _; eauto.
  - destruct (String.eqb k' "length"); eauto.
  - destruct (String.eqb k' "length"); eauto.
  - destruct (lookup k' props); eauto.
Qed.

Lemma lookup_update_same (k : string) (x : JsVal) props :
  lookup k (update k x props) = Some x.
Proof.
  induction props as [|[k' v] rest IH]; simpl.
  - now rewrite String.eqb_refl.
  - destruct (String.eqb k k') eqn:E; simpl.
    + now rewrite String.eqb_refl.
    + now rewrite E.
Qed.

Lemma lookup_update_other (k k' : string) (x : JsVal) props :
  k' <> k -> lookup k' (update k x props) = lookup k' props.
Proof.
  intro Hne. induction props as [|[k0 v] rest IH]; simpl.
  - apply String.eqb_neq in Hne. now rewrite Hne.
  - destruct (String.eqb k k0) eqn:E; simpl.
    + apply String.eqb_eq in E. subst k0.
      apply String.eqb_neq in Hne. now rewrite Hne.
    + now rewrite IH.
Qed.

Lemma mapM_In (f : JsVal -> Exc JsVal) (l l' : list JsVal) (y : JsVal) :
  mapM f l = Ok l' -> In y l' -> exists x, In x l /\ f x = Ok y.
Proof.
  revert l'. induction l as [|x rest IH]; simpl; intros l' H Hin.
  - injection H as <-. destruct Hin.
  - apply bind_Ok in H as (y0 & Hy0 & H).
    apply bind_Ok in H as (rest' & Hrest & H).
    injection H as <-. destruct Hin as [<- | Hin].
    + exists x. auto.
    + destruct (IH _ Hrest Hin) as (x' & Hx' & Hf). exists x'. auto.
Qed.

Lemma mapM_length (f : JsVal -> Exc JsVal) (l l' : list JsVal) :
  mapM f l = Ok l' -> List.length l' = List.length l.
Proof.
  revert l'. induction l as [|x rest IH]; simpl; intros l' H.
  - now injection H as <-.
  - apply bind_Ok in H as (y0 & Hy0 & H).
    apply bind_Ok in H as (rest' & Hrest & H).
    injection H as <-. simpl. f_equal. auto.
Qed.

Lemma mapM_Forall2 (f : JsVal -> Exc JsVal) (l l' : list JsVal) :
  mapM f l = Ok l' -> Forall2 (fun x y => f x = Ok y) l l'.
Proof.
  revert l'. induction l as [|x rest IH]; simpl; intros l' H.
  - injection H as <-. constructor.
  - apply bind_Ok in H as (y & Hy & H).
    apply bind_Ok in H as (rest' & Hrest & H).
    injection H as <-. constructor; auto.
Qed.


Lemma filterM_In (p : JsVal -> Exc bool) (l l' : list JsVal) (x : JsVal) :
  filterM p l = Ok l' -> In x l' -> In x l /\ p x = Ok true.
Proof.
  revert l'. induction l as [|a rest IH]; simpl; intros l' H Hin.
  - injection H as <-. destruct Hin.
  - apply bind_Ok in H as (keep & Hkeep & H).
    apply bind_Ok in H as (rest' & Hrest & H).
    injection H as <-. destruct keep.
    + destruct Hin as [<- | Hin]; [auto|].
      destruct (IH _ Hrest Hin); auto.
    + destruct (IH _ Hrest Hin); auto.
Qed.

Section Bands.
Context {host : Host}.

Lemma ge_literal_number (q n : Q) :
  ge_literal (JNum (Fin q)) n = Qle_bool n q.
Proof. reflexivity. Qed.

Lemma color_of_number (q : Q) :
  getMagnitudeColor (JNum (Fin q)) =
    if Qle_bool 7 q then "#d32f2f"
    else if Qle_bool 6 q then "#f57c00"
    else if Qle_bool 5 q then "#ffa000"
    else if Qle_bool 4 q then "#fbc02d"
    else "#7cb342".
Proof. reflexivity. Qed.

(** C4. [getMagnitudeColor] is defined on every real magnitude and
    follows the banding table with inclusive lower bounds: 7, 6, 5 and 4
    themselves select strong red, orange, amber and yellow; everything
    below 4 is light green; and a larger magnitude never gets a calmer
    band. *)
Theorem getMagnitudeColor_bands :
  (getMagnitudeColor (JNum (Fin 7)) = "#d32f2f"
   /\ getMagnitudeColor (JNum (Fin 6)) = "#f57c00"
   /\ getMagnitudeColor (JNum (Fin 5)) = "#ffa000"
   /\ getMagnitudeColor (JNum (Fin 4)) = "#fbc02d")
  /\ (forall q : Q,
        (7 <= q -> getMagnitudeColor (JNum (Fin q)) = "#d32f2f")
        /\ (6 <= q -> q < 7 -> getMagnitudeColor (JNum (Fin q)) = "#f57c00")
        /\ (5 <= q -> q < 6 -> getMagnitudeColor (JNum (Fin q)) = "#ffa000")
        /\ (4 <= q -> q < 5 -> getMagnitudeColor (JNum (Fin q)) = "#fbc02d")
        /\ (q < 4 -> getMagnitudeColor (JNum (Fin q)) = "#7cb342"))
  /\ (forall q1 q2 : Q,
        q1 <= q2 ->
        (Spec.severity (getMagnitudeColor (JNum (Fin q1)))
         <= Spec.severity (getMagnitudeColor (JNum (Fin q2))))%nat).
Proof.
  split; [repeat split; reflexivity|]. split.
  - intro q. rewrite color_of_number.
    destruct (Qle_bool_reflect 7 q), (Qle_bool_reflect 6 q),
      (Qle_bool_reflect 5 q), (Qle_bool_reflect 4 q);
      repeat split; intros; try reflexivity; exfalso; lra.
  - intros q1 q2 Hle. rewrite !color_of_number.
    destruct (Qle_bool_reflect 7 q1), (Qle_bool_reflect 6 q1),
      (Qle_bool_reflect 5 q1), (Qle_bool_reflect 4 q1),
      (Qle_bool_reflect 7 q2), (Qle_bool_reflect 6 q2),
      (Qle_bool_reflect 5 q2), (Qle_bool_reflect 4 q2);
      try (exfalso; lra); cbv; lia.
Qed.

End Bands.

(** The table on a magnitude of 3.2 and across the threshold at 6. *)
Lemma getMagnitudeColor_bands_witness :
  getMagnitudeColor (host := Demo.host) (JNum (Fin (32 # 10))) = "#7cb342"
  /\ (Spec.severity (getMagnitudeColor (host := Demo.host) (JNum (Fin (59 # 10))))
      <= Spec.severity (getMagnitudeColor (host := Demo.host) (JNum (Fin (61 # 10)))))%nat.
Proof.
  split.
  - apply (proj2 (proj2 (proj2 (proj2
      (proj1 (proj2 (@getMagnitudeColor_bands Demo.host)) (32 # 10)))))).
    reflexivity.
  - apply (proj2 (proj2 (@getMagnitudeColor_bands Demo.host))).
    discriminate.
Defined.

Section Sizes.
Context {host : Host}.

Lemma max_of_numbers (x y : Q) :
  Num.max (Fin x) (Fin y) = Fin (Spec.larger x y).
Proof. unfold Num.max, Spec.larger; simpl. now destruct (Qle_bool x y). Qed.

Lemma larger_bounds (x y : Q) :
  x <= Spec.larger x y /\ y <= Spec.larger x y
  /\ (Spec.larger x y == x \/ Spec.larger x y == y).
Proof.
  unfold Spec.larger. destruct (Qle_bool_reflect x y); repeat split; lra.
Qed.

Lemma single_size_number (data : JsVal) (m : Q) :
  get data "magnitude" = Ok (JNum (Fin m)) ->
  single_size data = Ok (JNum (Fin (Spec.larger 20 (m * 5)))).
Proof.
  intro H. unfold single_size. rewrite H. simpl.
  unfold Math_max, js_mul. simpl ToNumber. simpl Num.mul.
  now rewrite max_of_numbers.
Qed.

Lemma cluster_size_number (data : JsVal) (c : Q) :
  get data "count" = Ok (JNum (Fin c)) ->
  exists s, cluster_size data = Ok (JNum (Fin s))
            /\ s == Spec.clamp c 30 60.
Proof.
  intro H. unfold cluster_size. rewrite H. simpl.
  unfold Math_min, Math_max, Spec.clamp. simpl ToNumber.
  unfold Num.max, Num.min; simpl.
  destruct (Qle_bool_reflect 30 c), (Qle_bool_reflect c 30),
    (Qle_bool_reflect 60 c); simpl;
    repeat match goal with
      | |- context [Qle_bool ?a ?b] => destruct (Qle_bool_reflect a b)
      end;
    eexists; (split; [reflexivity|]); lra.
Qed.

(** C5. The size of a single marker is the greater of 20 and five times
    the magnitude; the size of a cluster marker is the member count
    clamped to the interval from 30 to 60, so every count of 60 or more
    gives 60 and every count of 30 or less gives 30.  The element's width
    and height are that size in pixels. *)
Theorem marker_size_rule :
  (forall (data : JsVal) (m : Q),
      get data "magnitude" = Ok (JNum (Fin m)) ->
      exists s el,
        single_size data = Ok (JNum (Fin s))
        /\ s = Spec.larger 20 (m * 5)
        /\ 20 <= s /\ m * 5 <= s /\ (s == 20 \/ s == m * 5)
        /\ createMarkerElement (JStr "single") data = Ok el
        /\ get2 el "style" "width" = Ok (px (JNum (Fin s)))
        /\ get2 el "style" "height" = Ok (px (JNum (Fin s))))
  /\ (forall (type data : JsVal) (c : Q),
        is_string type "single" = false ->
        get data "count" = Ok (JNum (Fin c)) ->
        exists s el,
          cluster_size data = Ok (JNum (Fin s))
          /\ s == Spec.clamp c 30 60
          /\ 30 <= s /\ s <= 60
          /\ (60 <= c -> s == 60) /\ (c <= 30 -> s == 30)
          /\ (30 <= c -> c <= 60 -> s == c)
          /\ createMarkerElement type data = Ok el
          /\ get2 el "style" "width" = Ok (px (JNum (Fin s)))
          /\ get2 el "style" "height" = Ok (px (JNum (Fin s)))).
Proof.
  split.
  - intros data m H.
    exists (Spec.larger 20 (m * 5)).
    unfold createMarkerElement. simpl is_string.
    rewrite (single_size_number _ _ H), H. simpl bind.
    destruct (larger_bounds 20 (m * 5)) as (Hlo & Hhi & Hor).
    eexists. repeat split; try reflexivity; assumption.
  - intros type data c Hty H.
    destruct (cluster_size_number _ _ H) as (s & Hs & Hclamp).
    destruct (get_total _ _ "avgMagnitude" _ H) as (a & Ha).
    exists s. unfold createMarkerElement. rewrite Hty, Hs, Ha, H.
    simpl bind. eexists. split; [reflexivity|].
    split; [exact Hclamp|].
    unfold Spec.clamp in Hclamp.
    destruct (Qle_bool_reflect c 30), (Qle_bool_reflect 60 c);
      repeat split; try reflexivity; intros; lra.
Qed.

End Sizes.

(** A magnitude of 6.1 gives 30.5; a cluster of 75 gives 60. *)
Lemma marker_size_rule_witness :
  (exists s el,
      single_size (host := Demo.host)
        (JObj [("magnitude", JNum (Fin (61 # 10)))]) = Ok (JNum (Fin s))
      /\ s = Spec.larger 20 ((61 # 10) * 5)
      /\ 20 <= s /\ (61 # 10) * 5 <= s /\ (s == 20 \/ s == (61 # 10) * 5)
      /\ createMarkerElement (host := Demo.host) (JStr "single")
           (JObj [("magnitude", JNum (Fin (61 # 10)))]) = Ok el
      /\ get2 el "style" "width" = Ok (px (host := Demo.host) (JNum (Fin s)))
      /\ get2 el "style" "height" = Ok (px (host := Demo.host) (JNum (Fin s))))
  /\ (exists s el,
        cluster_size (host := Demo.host)
          (JObj [("count", JNum (Fin 75))]) = Ok (JNum (Fin s))
        /\ s == Spec.clamp 75 30 60
        /\ 30 <= s /\ s <= 60
        /\ (60 <= 75 -> s == 60) /\ (75 <= 30 -> s == 30)
        /\ (30 <= 75 -> 75 <= 60 -> s == 75)
        /\ createMarkerElement (host := Demo.host) (JStr "cluster")
             (JObj [("count", JNum (Fin 75))]) = Ok el
        /\ get2 el "style" "width" = Ok (px (host := Demo.host) (JNum (Fin s)))
        /\ get2 el "style" "height" = Ok (px (host := Demo.host) (JNum (Fin s)))).
Proof.
  split.
  - apply (proj1 (@marker_size_rule Demo.host)). reflexivity.
  - apply (proj2 (@marker_size_rule Demo.host)); reflexivity.
Defined.

(* ===================================================================== *)
(** ** Validation *)
(* ===================================================================== *)

Lemma and_then_true (a b : Exc bool) :
  a &&& b = Ok true <-> a = Ok true /\ b = Ok true.
Proof.
  unfold and_then. destruct a as [[|]|e]; simpl; split; intros;
    try tauto; try discriminate; destruct H; try discriminate; auto.
Qed.

Lemma test_true (m : Exc JsVal) (p : JsVal -> bool) :
  (x <- m ;; Ok (p x)) = Ok true <-> exists x, m = Ok x /\ p x = true.
Proof.
  destruct m as [x|e]; simpl; split.
  - intro H. exists x. split; congruence.
  - intros (y & Hy & Hp). congruence.
  - discriminate.
  - intros (y & Hy & _). discriminate.
Qed.

Lemma get_property (v : JsVal) (k : string) (x : JsVal) :
  k <> "length" -> x <> JUndefined ->
  (get v k = Ok x <-> exists ps, v = JObj ps /\ lookup k ps = Some x).
Proof.
  intros Hk Hx. apply String.eqb_neq in Hk. split.
  - destruct v; simpl; rewrite ?Hk; intro H; try discriminate H;
      try (injection H as <-; congruence).
    destruct (lookup k props) eqn:E; injection H as <-;
      [eauto | congruence].
  - intros (ps & -> & H). simpl. now rewrite H.
Qed.

Lemma get_opt_property (v : JsVal) (k : string) (x : JsVal) :
  k <> "length" -> x <> JUndefined ->
  (get_opt v k = Ok x <-> exists ps, v = JObj ps /\ lookup k ps = Some x).
Proof.
  intros Hk Hx. rewrite <- (get_property v k x Hk Hx).
  destruct v; simpl; try tauto; split; intro H; try discriminate H;
    injection H as <-; congruence.
Qed.

Lemma is_string_true (v : JsVal) (s : string) :
  is_string v s = true -> v = JStr s.
Proof.
  destruct v; simpl; try discriminate. intro H.
  apply String.eqb_eq in H. now subst.
Qed.

Lemma truthy_defined (v : JsVal) : truthy v = true -> v <> JUndefined.
Proof. destruct v; simpl; congruence. Qed.

Lemma not_nullish_defined (v : JsVal) :
  not_nullish v = true -> v <> JUndefined.
Proof. destruct v; simpl; congruence. Qed.

Lemma truthy_not_nullish (v : JsVal) :
  truthy v = true -> not_nullish v = true.
Proof. destruct v; simpl; congruence. Qed.

Lemma isArray_true (v : JsVal) : isArray v = true -> exists l, v = JArr l.
Proof. destruct v; simpl; try discriminate; eauto. Qed.

Lemma length_three (l : list JsVal) :
  is_number (JNum (of_nat (List.length l))) 3 = true ->
  exists a b c, l = [a; b; c].
Proof.
  simpl. intro H. apply Qeq_bool_iff in H.
  apply (proj1 (inject_Z_injective _ _)) in H.
  destruct l as [|a [|b [|c [|d l]]]]; simpl in H; try lia; eauto.
Qed.

Lemma valid_feature_well_formed (f : JsVal) :
  valid_feature f = Ok true -> well_formed_feature f.
Proof.
  unfold valid_feature, get2. rewrite !and_then_true.
  intros (((((((H1 & H2) & H3) & H4) & H5) & H6) & H7) & H8).
  apply test_true in H2 as (t & H2 & Ht).
  apply is_string_true in Ht. subst t.
  apply get_property in H2 as (ps & -> & Htype); try discriminate.
  simpl in H3, H4, H5, H6, H7, H8.
  destruct (lookup "geometry" ps) as [g|] eqn:Hg;
    simpl in H3, H4, H5; [|discriminate].
  apply test_true in H3 as (t & H3 & Ht).
  apply is_string_true in Ht. subst t.
  apply get_opt_property in H3 as (gps & -> & Hgtype); try discriminate.
  simpl in H4, H5.
  destruct (lookup "coordinates" gps) as [c|] eqn:Hc;
    simpl in H4, H5; [|discriminate].
  injection H4 as H4. apply isArray_true in H4 as (l & ->).
  simpl in H5. injection H5 as H5.
  apply length_three in H5 as (a & b & c & ->).
  destruct (lookup "properties" ps) as [p|] eqn:Hp;
    simpl in H6, H7, H8; [|discriminate].
  apply test_true in H6 as (mag & H6 & Hmag).
  apply get_opt_property in H6 as (pps & -> & Hm);
    [|discriminate|now apply not_nullish_defined].
  apply test_true in H7 as (place & H7 & Hplace).
  apply get_opt_property in H7 as (pps' & Heq & Hpl);
    [|discriminate|now apply truthy_defined].
  injection Heq as <-.
  apply test_true in H8 as (time & H8 & Htime).
  apply get_opt_property in H8 as (pps' & Heq & Hti);
    [|discriminate|now apply truthy_defined].
  injection Heq as <-.
  exists ps, gps, pps, a, b, c, mag, place, time. repeat split; assumption.
Qed.

Lemma well_formed_valid_feature (f : JsVal) :
  well_formed_feature f -> valid_feature f = Ok true.
Proof.
  intros (ps & gps & pps & a & b & c & mag & place & time & -> & Ht & Hg
          & Hgt & Hc & Hp & Hm & Hmag & Hpl & Hplace & Hti & Htime).
  unfold valid_feature, get2. simpl.
  rewrite Ht, Hg, Hp. simpl. rewrite Hgt, Hc, Hm, Hpl, Hti. simpl.
  rewrite Hmag, Hplace, Htime. reflexivity.
Qed.

Ltac step_test :=
  match goal with
  | |- exists b, Ok _ = Ok b => eexists; reflexivity
  | |- context [is_string ?v ?s] => is_var v; destruct (is_string v s)
  | |- context [isArray ?v] => is_var v; destruct v
  | |- context [not_nullish ?v] => is_var v; destruct (not_nullish v)
  | |- context [get_opt ?v _] => is_var v; destruct v
  | |- context [truthy ?v] => is_var v; destruct (truthy v)
  | |- context [match lookup ?k ?ps with _ => _ end] => destruct (lookup k ps)
  | |- context [is_number ?a ?b] => destruct (is_number a b)
  | |- context [String.eqb ?a ?b] => destruct (String.eqb a b)
  | |- context [Num.truthy ?a] => destruct (Num.truthy a)
  | |- context [if ?b then _ else _] => destruct b
  end.

(** The predicate reads only what the tests before it have secured, so it
    never throws. *)
Lemma valid_feature_total (f : JsVal) : exists b, valid_feature f = Ok b.
Proof.
  unfold valid_feature, get2, and_then.
  destruct f; repeat (simpl; step_test).
Qed.

Lemma filterM_total (p : JsVal -> Exc bool) (l : list JsVal) :
  (forall x, exists b, p x = Ok b) -> exists l', filterM p l = Ok l'.
Proof.
  intro Hp. induction l as [|x rest (rest' & IH)]; simpl; eauto.
  destruct (Hp x) as (b & ->). rewrite IH. simpl. eauto.
Qed.

Lemma filterM_keeps (p : JsVal -> Exc bool) (l l' : list JsVal) (x : JsVal) :
  filterM p l = Ok l' -> In x l -> p x = Ok true -> In x l'.
Proof.
  revert l'. induction l as [|a rest IH]; simpl; intros l' H Hin Hp.
  - destruct Hin.
  - apply bind_Ok in H as (keep & Hkeep & H).
    apply bind_Ok in H as (rest' & Hrest & H).
    injection H as <-. destruct Hin as [-> | Hin].
    + rewrite Hp in Hkeep. injection Hkeep as <-. now left.
    + destruct keep; [right|]; eauto.
Qed.

(** The invariant of the specification holds of a feature that carries a
    coordinate pair only, and validation drops that feature. *)
Lemma validity_invariant_counterexample :
  Spec.valid Demo.flat = true
  /\ valid_feature Demo.flat = Ok false
  /\ filterM valid_feature [Demo.flat] = Ok [].
Proof. repeat split; reflexivity. Qed.

(** C2, amended. Validation never raises and keeps exactly the features
    that are [Feature] objects with a [Point] geometry of exactly three
    coordinates, a magnitude that is neither null nor undefined, a truthy
    place and a truthy time; every other feature is dropped.  A kept
    feature whose place is a string satisfies the validity invariant of
    the specification. *)
Theorem valid_feature_keeps :
  forall (features kept : list JsVal) (f : JsVal),
    (exists l, filterM valid_feature features = Ok l)
    /\ (filterM valid_feature features = Ok kept ->
        (In f kept <-> In f features /\ well_formed_feature f))
    /\ (valid_feature f = Ok true \/ valid_feature f = Ok false)
    /\ (valid_feature f = Ok true <-> well_formed_feature f)
    /\ (valid_feature f = Ok true ->
        (exists place, get2 f "properties" "place" = Ok (JStr place)) ->
        Spec.valid f = true).
Proof.
  intros features kept f. split; [|split; [|split; [|split]]].
  - apply filterM_total, valid_feature_total.
  - intro H. split.
    + intro Hin. destruct (filterM_In _ _ _ _ H Hin) as (Hf & Hv).
      split; [assumption | now apply valid_feature_well_formed].
    + intros (Hin & Hw). apply (filterM_keeps _ _ _ _ H Hin).
      now apply well_formed_valid_feature.
  - destruct (valid_feature_total f) as ([|] & ->); auto.
  - split; [apply valid_feature_well_formed | apply well_formed_valid_feature].
  - intros Hv (s & Hs). apply valid_feature_well_formed in Hv.
    destruct Hv as (ps & gps & pps & a & b & c & mag & place & time & ->
                    & Ht & Hg & Hgt & Hc & Hp & Hm & Hmag & Hpl & Hplace
                    & Hti & Htime).
    unfold Spec.valid, get2 in *. simpl in *.
    rewrite Hp in Hs. simpl in Hs. rewrite Hpl in Hs. injection Hs as ->.
    rewrite Hg, Hp. simpl. rewrite Hc, Hm, Hpl, Hti. simpl.
    rewrite Hmag, (truthy_not_nullish _ Htime). simpl in Hplace.
    now rewrite Hplace.
Qed.

(** Three well-formed features and one without a place: the three are
    kept. *)
Lemma valid_feature_keeps_witness :
  (In Demo.chiba [Demo.tokyo; Demo.chiba; Demo.kanto] <->
   In Demo.chiba [Demo.tokyo; Demo.nameless; Demo.chiba; Demo.kanto]
   /\ well_formed_feature Demo.chiba)
  /\ Spec.valid Demo.chiba = true.
Proof.
  pose proof (valid_feature_keeps
                [Demo.tokyo; Demo.nameless; Demo.chiba; Demo.kanto]
                [Demo.tokyo; Demo.chiba; Demo.kanto] Demo.chiba)
    as (_ & Hkept & _ & _ & Hspec).
  split.
  - apply Hkept. reflexivity.
  - apply Hspec; [reflexivity | eexists; reflexivity].
Defined.

(* ===================================================================== *)
(** ** The boundary of createClusterMarkers *)
(* ===================================================================== *)

Lemma filterM_none (p : JsVal -> Exc bool) (l : list JsVal) :
  (forall x, In x l -> p x = Ok false) -> filterM p l = Ok [].
Proof.
  induction l as [|x rest IH]; simpl; intro H; [reflexivity|].
  rewrite (H x (or_introl eq_refl)). simpl.
  rewrite IH by auto. reflexivity.
Qed.

Section Boundary.
Context {host : Host} {sc : Supercluster}.

(** [formatDate] catches whatever the date conversion throws. *)
Lemma formatDate_total (timestamp : JsVal) :
  exists s, formatDate timestamp = Ok (JStr s).
Proof.
  unfold formatDate. destruct (toLocaleString timestamp) as [s|e]; simpl;
    eauto.
Qed.

(** The guard in front of the [try] block: it lets through non-empty
    arrays only, and cannot throw. *)
Lemma guard_outcome (earthquakes : JsVal) :
  (Ok (negb (truthy earthquakes))
   ||| Ok (negb (isArray earthquakes))
   ||| (n <- get earthquakes "length" ;; Ok (is_number n 0)))
  = Ok (match earthquakes with
        | JArr (_ :: _) => false
        | _ => true
        end).
Proof.
  destruct earthquakes as [| |b|n|s|l|ps]; try reflexivity.
  - now destruct b.
  - unfold or_test; simpl. now destruct (Num.truthy n).
  - unfold or_test; simpl. now destruct (negb (s =? "")).
  - destruct l; reflexivity.
Qed.

(** C1. Whatever the features, the viewport, the zoom and the behaviour
    of the index, [createClusterMarkers] returns a list and never an
    exception: an exception raised anywhere in the [try] block
    (validation, index construction, viewport accessors, query, marker
    construction) is caught, and the result is then the empty list. *)
Theorem createClusterMarkers_never_raises :
  forall (earthquakes : JsVal) (bounds : Bounds) (zoom : JsVal),
  exists markers : list JsVal,
    createClusterMarkers earthquakes bounds zoom = Ok markers
    /\ (forall error,
           cluster_markers_body (elements earthquakes) bounds zoom
           = Throw error ->
           markers = []).
Proof.
  intros earthquakes bounds zoom. unfold createClusterMarkers.
  rewrite guard_outcome.
  destruct earthquakes as [| |b|n|s|[|first rest]|ps];
    cbn [bind elements];
    try (exists []; split; [reflexivity | reflexivity]).
  destruct (cluster_markers_body (first :: rest) bounds zoom)
    as [markers|e] eqn:E; cbn [try_catch].
  - exists markers. split; [reflexivity | discriminate].
  - exists []. split; reflexivity.
Qed.

(** C7. An empty feature list, and a list from which validation keeps
    nothing, both give the empty list of markers, without any error. *)
Theorem createClusterMarkers_nothing_valid :
  forall (bounds : Bounds) (zoom : JsVal),
    createClusterMarkers (JArr []) bounds zoom = Ok []
    /\ (forall features : list JsVal,
           filterM valid_feature features = Ok [] ->
           createClusterMarkers (JArr features) bounds zoom = Ok [])
    /\ (forall features : list JsVal,
           (forall f, In f features -> valid_feature f = Ok false) ->
           createClusterMarkers (JArr features) bounds zoom = Ok []).
Proof.
  intros bounds zoom.
  assert (Hnone : forall features : list JsVal,
             filterM valid_feature features = Ok [] ->
             createClusterMarkers (JArr features) bounds zoom = Ok []).
  { intros features H. unfold createClusterMarkers.
    rewrite guard_outcome. destruct features as [|f rest]; [reflexivity|].
    cbn [bind elements]. unfold cluster_markers_body.
    rewrite H. reflexivity. }
  split; [reflexivity|]. split; [exact Hnone|].
  intros features H. apply Hnone. now apply filterM_none.
Qed.

End Boundary.

(** With an index that fails, a viewport that is missing, or both, the
    result is the empty list. *)
Lemma createClusterMarkers_never_raises_witness :
  exists markers : list JsVal,
    createClusterMarkers (host := Demo.host) (sc := Demo.broken)
      (JArr [Demo.tokyo; Demo.chiba]) Demo.no_bounds (JNum (Fin (5 # 2)))
    = Ok markers
    /\ markers = [].
Proof.
  destruct (@createClusterMarkers_never_raises Demo.host Demo.broken
              (JArr [Demo.tokyo; Demo.chiba]) Demo.no_bounds
              (JNum (Fin (5 # 2)))) as (markers & Hrun & Hcaught).
  exists markers. split; [exact Hrun|].
  apply (Hcaught (JStr "no index")). reflexivity.
Defined.

(** Two features that validation rejects. *)
Lemma createClusterMarkers_nothing_valid_witness :
  createClusterMarkers (host := Demo.host) (sc := Demo.one_cell)
    (JArr [Demo.nameless; Demo.flat]) Demo.world (JNum (Fin 4)) = Ok [].
Proof.
  apply (proj1 (proj2 (@createClusterMarkers_nothing_valid
                         Demo.host Demo.one_cell Demo.world (JNum (Fin 4))))).
  reflexivity.
Defined.

(* ===================================================================== *)
(** ** The running average *)
(* ===================================================================== *)

Section RunningAverage.
Context {host : Host}.

Lemma div_positive (x y : Q) : 0 < y -> Num.div (Fin x) (Fin y) = Fin (x / y).
Proof.
  intro H. unfold Num.div, is_zero.
  destruct (Qeq_bool_reflect y 0); [lra | reflexivity].
Qed.

Lemma depth_or_zero (d : Q) :
  exists d', or_else (JNum (Fin d)) (Ok (JNum (Fin 0))) = Ok (JNum (Fin d'))
             /\ d' == d.
Proof.
  unfold or_else. simpl. unfold is_zero.
  destruct (Qeq_bool_reflect d 0); simpl; eexists; split;
    try reflexivity. lra.
Qed.


Lemma get_update_same (k : string) (x : JsVal) ps :
  get (JObj (update k x ps)) k = Ok x.
Proof. simpl. now rewrite lookup_update_same. Qed.

Lemma get_update_other (k k' : string) (x : JsVal) ps :
  k' <> k -> get (JObj (update k x ps)) k' = get (JObj ps) k'.
Proof. intro H. simpl. now rewrite lookup_update_other. Qed.

Lemma get_lookup (k : string) (x : JsVal) ps :
  lookup k ps = Some x -> get (JObj ps) k = Ok x.
Proof. intro H. simpl. now rewrite H. Qed.

Lemma running_average_value (a c m : Q) :
  0 < c + 1 ->
  js_div (js_add (js_mul (JNum (Fin a)) (JNum (Fin c))) (JNum (Fin m)))
         (js_add (JNum (Fin c)) (JNum (Fin 1)))
  = JNum (Fin ((a * c + m) / (c + 1))).
Proof.
  intro H. unfold js_div, js_add, js_mul.
  cbn [ToNumber stringy orb Num.add Num.mul]. now rewrite div_positive.
Qed.

(** One step of the reducer of the sources: with the current count [c] in
    [acc.count], the averages become [(avg * c + x) / (c + 1)]; the count
    itself is left as it was. *)
Lemma reduce_props_step (acc : JsVal) (mag depth : Q) (n : nat) (p : Q * Q) :
  aggregate_of acc mag depth n ->
  exists acc',
    reduce_props acc (point_props p) = Ok acc'
    /\ aggregate_of acc'
         ((mag * inject_Z (Z.of_nat n) + fst p) / (inject_Z (Z.of_nat n) + 1))
         ((depth * inject_Z (Z.of_nat n) + snd p) / (inject_Z (Z.of_nat n) + 1))
         n.
Proof.
  intros (ps & m & d & c & -> & Hm & Em & Hd & Ed & Hc & Ec).
  assert (Hpos : 0 < c + 1).
  { rewrite Ec. assert (0 <= inject_Z (Z.of_nat n)).
    { rewrite <- (Zle_Qle 0). lia. } lra. }
  destruct (depth_or_zero (snd p)) as (d' & Hd' & Ed').
  assert (Hpm : get (point_props p) "mag" = Ok (JNum (Fin (fst p))))
    by reflexivity.
  assert (Hpd : get (point_props p) "depth" = Ok (JNum (Fin (snd p))))
    by reflexivity.
  unfold reduce_props.
  rewrite (get_lookup _ _ _ Hm), (get_lookup _ _ _ Hc), Hpm.
  cbn [bind set].
  rewrite !get_update_other by discriminate.
  rewrite (get_lookup _ _ _ Hd), (get_lookup _ _ _ Hc), Hpd.
  cbn [bind]. rewrite Hd'. cbn [bind set].
  rewrite !running_average_value by assumption.
  eexists. split; [reflexivity|].
  do 4 eexists. split; [reflexivity|].
  rewrite lookup_update_other by discriminate.
  rewrite lookup_update_same.
  rewrite lookup_update_same.
  rewrite !lookup_update_other by discriminate.
  split; [reflexivity|]. split.
  { rewrite Em, Ec. reflexivity. }
  split; [reflexivity|]. split.
  { rewrite Ed, Ec, Ed'. reflexivity. }
  split; [exact Hc | exact Ec].
Qed.

(** The reducer reads [acc.count]; on an accumulator without that
    property the product with [undefined] is NaN and so is the average
    it stores. *)
Lemma reduce_props_without_count (ps : list (string * JsVal))
  (props : JsVal) (a m : number) :
  lookup "mag" ps = Some (JNum a) ->
  lookup "count" ps = None ->
  get props "mag" = Ok (JNum m) ->
  forall acc, reduce_props (JObj ps) props = Ok acc ->
              get acc "mag" = Ok (JNum NaN).
Proof.
  intros Hm Hc Hp acc. unfold reduce_props.
  rewrite (get_lookup _ _ _ Hm), Hp. cbn [bind get]. rewrite Hc.
  cbn [bind set]. rewrite !get_update_other by discriminate.
  cbn [get]. rewrite Hc.
  assert (Hnan : js_div (js_add (js_mul (JNum a) JUndefined) (JNum m))
                   (js_add JUndefined (JNum (Fin 1))) = JNum NaN).
  { unfold js_div, js_add, js_mul. simpl. now destruct a. }
  rewrite Hnan. intro H.
  apply bind_Ok in H as (ad & _ & H). cbn [bind] in H.
  apply bind_Ok in H as (pd & _ & H).
  apply bind_Ok in H as (d & _ & H).
  injection H as <-. rewrite get_update_other by discriminate.
  apply get_update_same.
Qed.

End RunningAverage.

(** C3. The running average is lost on the program's own accumulators.
    For the three nearby earthquakes of the example the index maps the
    properties of the first and reduces the mapped properties of the other
    two into them: the [map] option has built no [count], the reducer
    multiplies by [acc.count] all the same, and the magnitude and depth it
    stores are NaN, while the arithmetic mean of the three magnitudes is
    16/3; the count is still missing afterwards. *)
Theorem running_average_is_lost :
  exists first second third acc mapped acc',
    get Demo.tokyo "properties" = Ok first
    /\ get Demo.chiba "properties" = Ok second
    /\ get Demo.kanto "properties" = Ok third
    /\ map_props first = Ok acc
    /\ mapM map_props [second; third] = Ok mapped
    /\ reduceM (reduce_props (host := Demo.host)) mapped acc = Ok acc'
    /\ get acc' "mag" = Ok (JNum NaN)
    /\ get acc' "depth" = Ok (JNum NaN)
    /\ get acc' "count" = Ok JUndefined
    /\ List.map (fun p => get p "mag") [first; second; third]
       = [Ok (JNum (Fin (61 # 10))); Ok (JNum (Fin (47 # 10)));
          Ok (JNum (Fin (52 # 10)))]
    /\ Spec.arithmetic_mean [61 # 10; 47 # 10; 52 # 10] == 16 # 3.
Proof.
  do 6 eexists.
  do 10 (split; [reflexivity|]).
  reflexivity.
Qed.

(* ===================================================================== *)
(** ** Marker descriptors *)
(* ===================================================================== *)

Section Markers.
Context {host : Host} {sc : Supercluster}.

(** Every marker returned is built by [marker_of] from a node that the
    index returned for the validated features. *)
Lemma createClusterMarkers_markers (earthquakes : JsVal) (bounds : Bounds)
  (zoom : JsVal) (markers : list JsVal) (d : JsVal) :
  createClusterMarkers earthquakes bounds zoom = Ok markers ->
  In d markers ->
  exists valid i0 i bbox nodes node,
    filterM valid_feature (elements earthquakes) = Ok valid
    /\ create options = Ok i0
    /\ load i0 valid = Ok i
    /\ getClusters i bbox (Num.floor (ToNumber zoom)) = Ok nodes
    /\ In node nodes
    /\ marker_of i node = Ok d.
Proof.
  unfold createClusterMarkers. rewrite guard_outcome.
  destruct earthquakes as [| |b|n|s|[|first rest]|ps]; cbn [bind elements];
    try (intros H Hin; injection H as <-; destruct Hin).
  destruct (cluster_markers_body (first :: rest) bounds zoom)
    as [ms|e] eqn:E; cbn [try_catch]; intros H Hin; injection H as <-;
    [|destruct Hin].
  unfold cluster_markers_body in E.
  apply bind_Ok in E as (valid & Hvalid & E).
  destruct (Nat.eqb (List.length valid) 0);
    [injection E as <-; destruct Hin|].
  apply bind_Ok in E as (i0 & Hcreate & E).
  apply bind_Ok in E as (i & Hload & E).
  apply bind_Ok in E as (west & _ & E).
  apply bind_Ok in E as (south & _ & E).
  apply bind_Ok in E as (east & _ & E).
  apply bind_Ok in E as (north & _ & E).
  apply bind_Ok in E as (nodes & Hnodes & E).
  apply bind_Ok in E as (built & Hbuilt & E).
  injection E as <-. apply filter_In in Hin as (Hin & _).
  destruct (mapM_In _ _ _ _ Hbuilt Hin) as (node & Hnode & Hd).
  exists valid, i0, i, [west; south; east; north], nodes, node. auto 10.
Qed.

Lemma marker_of_cases (i : Index) (node d : JsVal) :
  marker_of i node = Ok d ->
  exists flag,
    get2 node "properties" "cluster" = Ok flag
    /\ ((truthy flag = false /\ single_marker_of node d)
        \/ (truthy flag = true /\ cluster_marker_of i node d)).
Proof.
  unfold marker_of. intro H.
  apply bind_Ok in H as (flag & Hflag & H). exists flag. split; [assumption|].
  destruct (truthy flag); cbn [negb] in H; [right | left];
    (split; [reflexivity|]).
  - apply bind_Ok in H as (id & Hid & H).
    apply bind_Ok in H as (leaves & Hleaves & H).
    apply bind_Ok in H as (points & Hpoints & H).
    apply bind_Ok in H as (coordinates & Hcoords & H).
    apply bind_Ok in H as (count & Hcount & H).
    apply bind_Ok in H as (mag & Hmag & H).
    apply bind_Ok in H as (avgMagnitude & HavgM & H).
    apply bind_Ok in H as (dep & Hdep & H).
    apply bind_Ok in H as (avgDepth & HavgD & H).
    injection H as <-.
    exists id, leaves, points, coordinates, count, mag, avgMagnitude, dep,
      avgDepth. auto 12.
  - apply bind_Ok in H as (earthquake & Hearthquake & H).
    apply bind_Ok in H as (coordinates & Hcoords & H).
    apply bind_Ok in H as (magnitude & Hmag & H).
    apply bind_Ok in H as (c & Hc & H).
    apply bind_Ok in H as (depth & Hdepth & H).
    injection H as <-. rewrite Hcoords in Hc. injection Hc as <-.
    exists earthquake, coordinates, magnitude, depth. auto 8.
Qed.


Lemma type_is_single_or_cluster (i : Index) (node d : JsVal) :
  (single_marker_of node d -> get d "type" = Ok (JStr "single"))
  /\ (cluster_marker_of i node d -> get d "type" = Ok (JStr "cluster")).
Proof.
  split.
  - intros (? & ? & ? & ? & _ & _ & _ & _ & ->). reflexivity.
  - intros (? & ? & ? & ? & ? & ? & ? & ? & ? & _ & _ & _ & _ & _ & _ & _
            & _ & _ & ->). reflexivity.
Qed.

Lemma marker_is_object (i : Index) (node d : JsVal) :
  marker_of i node = Ok d -> truthy d = true /\ marker_matches node d.
Proof.
  intro H.
  destruct (marker_of_cases _ _ _ H) as (flag & Hflag & [[Hf Hs]|[Hf Hc]]).
  - destruct Hs as (? & ? & ? & ? & _ & _ & _ & _ & ->).
    split; [reflexivity|]. exists flag. rewrite Hf. auto.
  - destruct Hc as (? & ? & ? & ? & ? & ? & ? & ? & ? & _ & _ & _ & _ & _
                    & _ & _ & _ & _ & ->).
    split; [reflexivity|]. exists flag. rewrite Hf. auto.
Qed.

Lemma filter_truthy_markers (i : Index) (nodes markers : list JsVal) :
  mapM (marker_of i) nodes = Ok markers -> filter truthy markers = markers.
Proof.
  revert markers. induction nodes as [|n rest IH]; simpl; intros markers H.
  - now injection H as <-.
  - apply bind_Ok in H as (d & Hd & H).
    apply bind_Ok in H as (rest' & Hrest & H).
    injection H as <-. simpl.
    destruct (marker_is_object _ _ _ Hd) as (-> & _).
    now rewrite (IH _ Hrest).
Qed.





Lemma single_earthquake_fields (node eq : JsVal) :
  single_earthquake node = Ok eq ->
  exists id magnitude location coordinates depth time timestamp url,
    eq = JObj [("id", id); ("magnitude", magnitude); ("location", location);
               ("coordinates", coordinates); ("depth", depth);
               ("time", time); ("timestamp", timestamp); ("url", url)]
    /\ (pid <- get2 node "properties" "id" ;; or_else pid (get node "id"))
       = Ok id
    /\ get2 node "properties" "mag" = Ok magnitude
    /\ get2 node "properties" "place" = Ok location
    /\ get2 node "geometry" "coordinates" = Ok coordinates
    /\ get_index coordinates 2 = Ok depth
    /\ (t <- get2 node "properties" "time" ;; formatDate t) = Ok time
    /\ get2 node "properties" "time" = Ok timestamp
    /\ get2 node "properties" "url" = Ok url.
Proof.
  unfold single_earthquake. intro H.
  apply bind_Ok in H as (pid & Hpid & H).
  apply bind_Ok in H as (id & Hid & H).
  apply bind_Ok in H as (magnitude & Hmag & H).
  apply bind_Ok in H as (location & Hloc & H).
  apply bind_Ok in H as (coordinates & Hcoords & H).
  apply bind_Ok in H as (c & Hc & H).
  apply bind_Ok in H as (depth & Hdepth & H).
  apply bind_Ok in H as (t & Ht & H).
  apply bind_Ok in H as (time & Htime & H).
  apply bind_Ok in H as (timestamp & Hts & H).
  apply bind_Ok in H as (url & Hurl & H).
  injection H as <-. rewrite Hcoords in Hc. injection Hc as <-.
  exists id, magnitude, location, coordinates, depth, time, timestamp, url.
  rewrite Hpid. cbn [bind]. repeat split; try assumption.
  rewrite Ht. exact Htime.
Qed.

Context {contract : SuperclusterContract sc}.

(** C9. With an index that honours its contract, every single descriptor
    is built from one of the input features, a well-formed one: the
    nested earthquake has exactly the eight fields id, magnitude,
    location, coordinates, depth, time, timestamp and url, each read from
    that feature (time through [formatDate]), and the top-level
    coordinates, magnitude and depth repeat the nested ones. *)
Theorem single_descriptor_is_input_feature (earthquakes : JsVal)
  (bounds : Bounds) (zoom : JsVal) (markers : list JsVal) (d : JsVal) :
  createClusterMarkers earthquakes bounds zoom = Ok markers ->
  In d markers ->
  get d "type" = Ok (JStr "single") ->
  exists (f earthquake : JsVal) (fields : list (string * JsVal)),
    In f (elements earthquakes)
    /\ well_formed_feature f
    /\ get d "earthquake" = Ok earthquake
    /\ earthquake = JObj fields
    /\ List.map fst fields
       = ["id"; "magnitude"; "location"; "coordinates"; "depth"; "time";
          "timestamp"; "url"]
    /\ get earthquake "id"
       = (pid <- get2 f "properties" "id" ;; or_else pid (get f "id"))
    /\ get earthquake "magnitude" = get2 f "properties" "mag"
    /\ get earthquake "location" = get2 f "properties" "place"
    /\ get earthquake "coordinates" = get2 f "geometry" "coordinates"
    /\ get earthquake "depth"
       = (c <- get2 f "geometry" "coordinates" ;; get_index c 2)
    /\ get earthquake "time"
       = (t <- get2 f "properties" "time" ;; formatDate t)
    /\ get earthquake "timestamp" = get2 f "properties" "time"
    /\ get earthquake "url" = get2 f "properties" "url"
    /\ get d "coordinates" = get earthquake "coordinates"
    /\ get d "magnitude" = get earthquake "magnitude"
    /\ get d "depth" = get earthquake "depth".
Proof.
  intros Hrun Hin Htype.
  destruct (createClusterMarkers_markers _ _ _ _ _ Hrun Hin)
    as (valid & i0 & i & bbox & nodes & node & Hvalid & Hcreate & Hload
        & Hnodes & Hnode & Hd).
  destruct (marker_of_cases _ _ _ Hd) as (flag & Hflag & [[Hf Hs]|[Hf Hc]]).
  2:{ apply (proj2 (type_is_single_or_cluster i node d)) in Hc. congruence. }
  destruct (node_kinds _ _ _ _ _ _ _ _ Hcreate Hload Hnodes Hnode)
    as [Hloaded | (n & id & Hcl & _)].
  2:{ rewrite Hflag in Hcl. injection Hcl as ->. discriminate. }
  destruct (filterM_In _ _ _ _ Hvalid Hloaded) as (Hfs & Hok).
  destruct Hs as (eq & coordinates & magnitude & depth & Heq & Hcoords
                  & Hmag & Hdepth & ->).
  destruct (single_earthquake_fields _ _ Heq)
    as (id & magnitude' & location & coordinates' & depth' & time
        & timestamp & url & -> & Hid & Hmag' & Hloc & Hcoords' & Hdepth'
        & Htime & Hts & Hurl).
  rewrite Hmag in Hmag'. injection Hmag' as <-.
  rewrite Hcoords in Hcoords'. injection Hcoords' as <-.
  rewrite Hdepth in Hdepth'. injection Hdepth' as <-.
  exists node. eexists. eexists.
  split; [exact Hfs|]. split; [now apply valid_feature_well_formed|].
  split; [reflexivity|]. split; [reflexivity|]. split; [reflexivity|].
  rewrite Hid, Hmag, Hloc, Hcoords, Htime, Hts, Hurl. cbn [bind].
  rewrite Hdepth. repeat split; reflexivity.
Qed.

Lemma flags_cluster_false (f flag : JsVal) :
  flags_cluster f = false -> get2 f "properties" "cluster" = Ok flag ->
  truthy flag = false.
Proof. unfold flags_cluster. intros H E. now rewrite E in H. Qed.





End Markers.

(* ===================================================================== *)
(** ** The single-cell index honours the contract *)
(* ===================================================================== *)

Lemma cell_properties_flagged (opts : Options) (members : list JsVal)
  (props : JsVal) :
  members <> [] ->
  Demo.cell_properties opts members = Ok props ->
  exists rest,
    props = JObj (("cluster", JBool true)
                  :: ("cluster_id", JNum (Fin 1))
                  :: ("point_count", JNum (of_nat (List.length members)))
                  :: rest).
Proof.
  destruct members as [|p rest]; [congruence|]. intros _ H.
  unfold Demo.cell_properties in H.
  apply bind_Ok in H as (pp & _ & H).
  apply bind_Ok in H as (acc & _ & H).
  apply bind_Ok in H as (acc' & _ & H).
  injection H as <-. eauto.
Qed.

Lemma firstn_incl (n : nat) (l : list JsVal) : incl (firstn n l) l.
Proof.
  intros x Hx. rewrite <- (firstn_skipn n l). apply in_or_app. now left.
Qed.

Lemma one_cell_contract : SuperclusterContract Demo.one_cell.
Proof.
  constructor.
  intros opts loaded i0 i bbox z nodes node Hcreate Hload Hnodes Hin.
  simpl in Hcreate, Hload. injection Hcreate as <-. injection Hload as <-.
  cbn [getClusters Demo.one_cell snd fst] in Hnodes.
  destruct loaded as [|p [|q rest]].
  - injection Hnodes as <-. destruct Hin.
  - injection Hnodes as <-. now left.
  - right.
    apply bind_Ok in Hnodes as (props & Hprops & H).
    apply bind_Ok in H as (c & _ & H). injection H as <-.
    destruct Hin as [<- | []].
    apply cell_properties_flagged in Hprops as (more & ->); [|discriminate].
    exists (List.length (p :: q :: rest)), (JNum (Fin 1)).
    repeat split; try reflexivity.
    + simpl. lia.
    + intro limit. exists (firstn limit (p :: q :: rest)).
      split; [reflexivity|]. split; [apply length_firstn | apply firstn_incl].
Qed.





Lemma demo_features_plain (f : JsVal) :
  In f (elements Demo.quakes) -> flags_cluster f = false.
Proof. intros [<- | [<- | [<- | []]]]; reflexivity. Qed.




(** One earthquake alone is shown as itself. *)
Lemma single_descriptor_is_input_feature_witness :
  exists (f earthquake : JsVal) (fields : list (string * JsVal)),
    In f (elements (JArr [Demo.tokyo]))
    /\ well_formed_feature f
    /\ get Demo.single_marker "earthquake" = Ok earthquake
    /\ earthquake = JObj fields
    /\ List.map fst fields
       = ["id"; "magnitude"; "location"; "coordinates"; "depth"; "time";
          "timestamp"; "url"]
    /\ get earthquake "id"
       = (pid <- get2 f "properties" "id" ;; or_else pid (get f "id"))
    /\ get earthquake "magnitude" = get2 f "properties" "mag"
    /\ get earthquake "location" = get2 f "properties" "place"
    /\ get earthquake "coordinates" = get2 f "geometry" "coordinates"
    /\ get earthquake "depth"
       = (c <- get2 f "geometry" "coordinates" ;; get_index c 2)
    /\ get earthquake "time"
       = (t <- get2 f "properties" "time" ;;
          formatDate (host := Demo.host) t)
    /\ get earthquake "timestamp" = get2 f "properties" "time"
    /\ get earthquake "url" = get2 f "properties" "url"
    /\ get Demo.single_marker "coordinates" = get earthquake "coordinates"
    /\ get Demo.single_marker "magnitude" = get earthquake "magnitude"
    /\ get Demo.single_marker "depth" = get earthquake "depth".
Proof.
  apply (@single_descriptor_is_input_feature Demo.host Demo.one_cell
           one_cell_contract (JArr [Demo.tokyo]) Demo.world Demo.zoom
           Demo.single_markers).
  - reflexivity.
  - left. reflexivity.
  - reflexivity.
Defined.

(* ===================================================================== *)
(** ** Scenarios *)
(* ===================================================================== *)

(** A feature without a place among three well-formed ones: three points
    are considered. *)
Example validation_scenario :
  filterM valid_feature
    [Demo.tokyo; Demo.nameless; Demo.chiba; Demo.kanto]
  = Ok [Demo.tokyo; Demo.chiba; Demo.kanto].
Proof. reflexivity. Qed.

(** A magnitude of 9.1 is strong red and at least 45 units wide. *)
Example great_earthquake_scenario :
  getMagnitudeColor (host := Demo.host) (JNum (Fin (91 # 10))) = "#d32f2f"
  /\ single_size (host := Demo.host)
       (JObj [("magnitude", JNum (Fin (91 # 10)))])
     = Ok (JNum (Fin ((91 # 10) * 5)))
  /\ 45 <= (91 # 10) * 5.
Proof. repeat split; try reflexivity. discriminate. Qed.

(** An empty list, a value that is not a list, and a missing viewport all
    give no markers. *)
Example empty_scenarios :
  createClusterMarkers (host := Demo.host) (sc := Demo.one_cell)
    (JArr []) Demo.world Demo.zoom = Ok []
  /\ createClusterMarkers (host := Demo.host) (sc := Demo.one_cell)
       JNull Demo.world Demo.zoom = Ok []
  /\ createClusterMarkers (host := Demo.host) (sc := Demo.one_cell)
       Demo.quakes Demo.no_bounds Demo.zoom = Ok [].
Proof. repeat split; reflexivity. Qed.

(** The reducer on the accumulator that the [map] option builds for a
    point: the stored average is NaN, and the cluster of the example shows
    the mean of its sample instead. *)
Example unavailable_average_scenario :
  (acc <- (p <- get Demo.tokyo "properties" ;;
           map_props p) ;;
   q <- (p <- get Demo.chiba "properties" ;;
         map_props p) ;;
   acc <- reduce_props (host := Demo.host) acc q ;;
   get acc "mag") = Ok (JNum NaN)
  /\ get Demo.cluster_marker "avgMagnitude"
     = Ok (JNum (Fin (16000 # 3000))).
Proof. split; reflexivity. Qed.

(* ===================================================================== *)
(** ** Further properties of validation and of the index options *)
(* ===================================================================== *)

Lemma filterM_all (p : JsVal -> Exc bool) (l : list JsVal) :
  (forall x, In x l -> p x = Ok true) -> filterM p l = Ok l.
Proof.
  induction l as [|x rest IH]; simpl; intro H; [reflexivity|].
  rewrite (H x (or_introl eq_refl)). simpl.
  rewrite IH by auto. reflexivity.
Qed.

(** X1. Validation is idempotent: the features it keeps all pass it
    again, in the same order. *)
Theorem validation_is_idempotent (features kept : list JsVal) :
  filterM valid_feature features = Ok kept ->
  filterM valid_feature kept = Ok kept.
Proof.
  intro H. apply filterM_all. intros x Hx.
  now destruct (filterM_In _ _ _ _ H Hx).
Qed.

Lemma validation_is_idempotent_witness :
  filterM valid_feature [Demo.tokyo; Demo.chiba; Demo.kanto]
  = Ok [Demo.tokyo; Demo.chiba; Demo.kanto].
Proof.
  apply (validation_is_idempotent
           [Demo.tokyo; Demo.nameless; Demo.chiba; Demo.flat; Demo.kanto]).
  reflexivity.
Defined.

Section IndexOptions.
Context {host : Host}.

Lemma map_props_shape (p acc : JsVal) :
  map_props p = Ok acc ->
  exists mag time place depth id,
    acc = JObj [("mag", mag); ("time", time); ("place", place);
                ("depth", depth); ("id", id)]
    /\ get p "mag" = Ok mag
    /\ get p "time" = Ok time
    /\ get p "place" = Ok place
    /\ get p "id" = Ok id
    /\ (exists d, get p "depth" = Ok d
                  /\ depth = if truthy d then d else JNum (Fin 0)).
Proof.
  unfold map_props. intro H.
  apply bind_Ok in H as (mag & Hmag & H).
  apply bind_Ok in H as (time & Htime & H).
  apply bind_Ok in H as (place & Hplace & H).
  apply bind_Ok in H as (d & Hd & H).
  apply bind_Ok in H as (depth & Hdepth & H).
  apply bind_Ok in H as (id & Hid & H).
  injection H as <-.
  exists mag, time, place, depth, id. repeat split; try assumption.
  exists d. split; [assumption|].
  unfold or_else in Hdepth. destruct (truthy d); congruence.
Qed.

(** Dividing by NaN gives NaN, whatever is divided. *)
Lemma js_div_NaN (a : JsVal) : js_div a (JNum NaN) = JNum NaN.
Proof. unfold js_div. simpl. now destruct (ToNumber a). Qed.

Lemma undefined_plus_one :
  js_add JUndefined (JNum (Fin 1)) = JNum NaN.
Proof. reflexivity. Qed.

Lemma reduce_countless (acc props : JsVal) :
  countless acc -> not_nullish props = true ->
  exists acc',
    reduce_props acc props = Ok acc'
    /\ countless acc'
    /\ get acc' "mag" = Ok (JNum NaN)
    /\ get acc' "depth" = Ok (JNum NaN).
Proof.
  intros (ps & -> & Hc) Hprops.
  assert (Hget : forall k, exists x, get props k = Ok x).
  { intro k. destruct props; simpl in *; try discriminate; eauto.
    - destruct (String.eqb k "length"); eauto.
    - destruct (String.eqb k "length"); eauto.
    - destruct (lookup k props); eauto. }
  destruct (Hget "mag") as (pm & Hpm). destruct (Hget "depth") as (pd & Hpd).
  assert (Hcount : get (JObj ps) "count" = Ok JUndefined).
  { simpl. now rewrite Hc. }
  assert (Hany : forall k, exists x, get (JObj ps) k = Ok x).
  { intro k. simpl. destruct (lookup k ps); eauto. }
  destruct (Hany "mag") as (am & Ham).
  unfold reduce_props. rewrite Ham, Hcount, Hpm. cbn [bind set].
  rewrite undefined_plus_one, js_div_NaN.
  rewrite !get_update_other by discriminate.
  destruct (Hany "depth") as (ad & Had). rewrite Had, Hcount, Hpd.
  cbn [bind].
  assert (Hd : exists d, or_else pd (Ok (JNum (Fin 0))) = Ok d).
  { unfold or_else. destruct (truthy pd); eauto. }
  destruct Hd as (d & ->). cbn [bind set].
  rewrite undefined_plus_one, js_div_NaN.
  eexists. split; [reflexivity|]. split; [|split].
  - eexists. split; [reflexivity|].
    rewrite !lookup_update_other by discriminate. exact Hc.
  - rewrite get_update_other by discriminate. apply get_update_same.
  - apply get_update_same.
Qed.

Lemma map_props_countless (p acc : JsVal) :
  map_props p = Ok acc -> countless acc /\ not_nullish acc = true.
Proof.
  intro H. apply map_props_shape in H as (? & ? & ? & ? & ? & -> & _).
  split; [|reflexivity]. eexists. split; reflexivity.
Qed.

Lemma reduce_all_countless (mapped : list JsVal) (acc : JsVal) :
  countless acc ->
  (forall m, In m mapped -> not_nullish m = true) ->
  exists acc',
    reduceM reduce_props mapped acc = Ok acc'
    /\ countless acc'
    /\ (mapped <> [] ->
        get acc' "mag" = Ok (JNum NaN) /\ get acc' "depth" = Ok (JNum NaN)).
Proof.
  revert acc. induction mapped as [|m rest IH]; intros acc Hacc Hall.
  - exists acc. split; [reflexivity|]. split; [assumption|]. congruence.
  - destruct (reduce_countless acc m Hacc (Hall m (or_introl eq_refl)))
      as (acc1 & Hstep & Hless & Hmag & Hdepth).
    simpl. rewrite Hstep. cbn [bind].
    destruct rest as [|m' rest'].
    + exists acc1. split; [reflexivity|]. split; [assumption|]. auto.
    + destruct (IH acc1 Hless) as (acc' & Hrun & Hless' & Hnan).
      { intros x Hx. apply Hall. now right. }
      exists acc'. split; [assumption|]. split; [assumption|].
      intros _. apply Hnan. discriminate.
Qed.

(** X2. The options given to the index do not fit together: the [map]
    option builds accumulators without the [count] that the [reduce]
    option reads, so after one or more points are reduced into the mapped
    properties of a first point the averages of magnitude and depth are
    both NaN, whatever the properties were. *)
Theorem mapped_points_reduce_to_NaN (first : JsVal) (others : list JsVal)
  (acc : JsVal) (mapped : list JsVal) :
  others <> [] ->
  map_props first = Ok acc ->
  mapM map_props others = Ok mapped ->
  exists acc',
    reduceM reduce_props mapped acc = Ok acc'
    /\ get acc' "mag" = Ok (JNum NaN)
    /\ get acc' "depth" = Ok (JNum NaN)
    /\ get acc' "count" = Ok JUndefined.
Proof.
  intros Hne Hacc Hmapped.
  destruct (map_props_countless _ _ Hacc) as (Hless & _).
  destruct (reduce_all_countless mapped acc Hless) as (acc' & Hrun & Hl & Hnan).
  { intros m Hm. destruct (mapM_In _ _ _ _ Hmapped Hm) as (p & _ & Hp).
    now destruct (map_props_countless _ _ Hp). }
  exists acc'. split; [assumption|].
  assert (Hm : mapped <> []).
  { intros ->. apply mapM_length in Hmapped. destruct others; [congruence|].
    discriminate. }
  destruct (Hnan Hm). repeat split; try assumption.
  destruct Hl as (ps & -> & Hc). simpl. now rewrite Hc.
Qed.

End IndexOptions.

Lemma mapped_points_reduce_to_NaN_witness :
  exists acc',
    reduceM (reduce_props (host := Demo.host))
      [JObj [("mag", JNum (Fin (47 # 10))); ("time", JNum (Fin 2));
             ("place", JStr "Chiba"); ("depth", JNum (Fin 0));
             ("id", JUndefined)]]
      (JObj [("mag", JNum (Fin (61 # 10))); ("time", JNum (Fin 1));
             ("place", JStr "Tokyo"); ("depth", JNum (Fin 0));
             ("id", JUndefined)])
    = Ok acc'
    /\ get acc' "mag" = Ok (JNum NaN)
    /\ get acc' "depth" = Ok (JNum NaN)
    /\ get acc' "count" = Ok JUndefined.
Proof.
  apply (@mapped_points_reduce_to_NaN Demo.host
           (JObj [("mag", JNum (Fin (61 # 10))); ("time", JNum (Fin 1));
                  ("place", JStr "Tokyo")])
           [JObj [("mag", JNum (Fin (47 # 10))); ("time", JNum (Fin 2));
                  ("place", JStr "Chiba")]]).
  - discriminate.
  - reflexivity.
  - reflexivity.
Defined.

(* ===================================================================== *)
(** ** Further properties of the markers *)
(* ===================================================================== *)

Lemma mapM_Throw (f : JsVal -> Exc JsVal) (l : list JsVal) (x e : JsVal) :
  In x l -> f x = Throw e -> exists e', mapM f l = Throw e'.
Proof.
  induction l as [|y rest IH]; simpl; intros Hin Hx; [destruct Hin|].
  destruct Hin as [-> | Hin].
  - rewrite Hx. simpl. eauto.
  - destruct (f y); simpl; [|eauto].
    destruct (IH Hin Hx) as (e' & ->). simpl. eauto.
Qed.

Section MarkerList.
Context {host : Host} {sc : Supercluster}.

(** X3. A result that is not empty holds exactly one marker for each
    node that the index returned for the validated features, in the order
    of the nodes: no marker is dropped, none is added, and each is
    'cluster' or 'single' as the node's own flag says. *)
Theorem one_marker_per_node (earthquakes : JsVal) (bounds : Bounds)
  (zoom : JsVal) (markers : list JsVal) :
  createClusterMarkers earthquakes bounds zoom = Ok markers ->
  markers <> [] ->
  exists valid i0 i bbox nodes,
    filterM valid_feature (elements earthquakes) = Ok valid
    /\ create options = Ok i0
    /\ load i0 valid = Ok i
    /\ getClusters i bbox (Num.floor (ToNumber zoom)) = Ok nodes
    /\ Forall2 (fun node d => marker_of i node = Ok d) nodes markers
    /\ Forall2 marker_matches nodes markers
    /\ List.length markers = List.length nodes.
Proof.
  unfold createClusterMarkers. rewrite guard_outcome.
  destruct earthquakes as [| |b|n|s|[|first rest]|ps]; cbn [bind elements];
    try (intros H Hne; injection H as <-; congruence).
  destruct (cluster_markers_body (first :: rest) bounds zoom)
    as [ms|e] eqn:E; cbn [try_catch]; intros H Hne; injection H as <-;
    [|congruence].
  unfold cluster_markers_body in E.
  apply bind_Ok in E as (valid & Hvalid & E).
  destruct (Nat.eqb (List.length valid) 0);
    [injection E as <-; congruence|].
  apply bind_Ok in E as (i0 & Hcreate & E).
  apply bind_Ok in E as (i & Hload & E).
  apply bind_Ok in E as (west & _ & E).
  apply bind_Ok in E as (south & _ & E).
  apply bind_Ok in E as (east & _ & E).
  apply bind_Ok in E as (north & _ & E).
  apply bind_Ok in E as (nodes & Hnodes & E).
  apply bind_Ok in E as (built & Hbuilt & E).
  injection E as <-. rewrite (filter_truthy_markers _ _ _ Hbuilt).
  exists valid, i0, i, [west; south; east; north], nodes.
  pose proof (mapM_Forall2 _ _ _ Hbuilt) as Hall.
  repeat split; try assumption.
  - clear - Hall. induction Hall; constructor; auto.
    now destruct (marker_is_object _ _ _ H).
  - now apply mapM_length in Hbuilt.
Qed.

(** X4. All or nothing: when the index has answered and a single one of
    its nodes cannot be turned into a marker, the markers of all the other
    nodes are lost with it and the result is the empty list. *)
Theorem one_bad_node_empties_the_result (features : list JsVal)
  (bounds : Bounds) (zoom : JsVal) (valid : list JsVal) (i0 i : Index)
  (west south east north : JsVal) (nodes : list JsVal)
  (node error : JsVal) :
  filterM valid_feature features = Ok valid ->
  create options = Ok i0 ->
  load i0 valid = Ok i ->
  getWest bounds = Ok west -> getSouth bounds = Ok south ->
  getEast bounds = Ok east -> getNorth bounds = Ok north ->
  getClusters i [west; south; east; north] (Num.floor (ToNumber zoom))
  = Ok nodes ->
  In node nodes ->
  marker_of i node = Throw error ->
  createClusterMarkers (JArr features) bounds zoom = Ok [].
Proof.
  intros Hvalid Hcreate Hload Hw Hs He Hn Hnodes Hin Hbad.
  unfold createClusterMarkers. rewrite guard_outcome.
  destruct features as [|f rest]; [reflexivity|].
  cbn [bind elements]. unfold cluster_markers_body. rewrite Hvalid.
  cbn [bind]. destruct (Nat.eqb (List.length valid) 0); [reflexivity|].
  rewrite Hcreate. cbn [bind]. rewrite Hload. cbn [bind].
  rewrite Hw, Hs, He, Hn. cbn [bind]. rewrite Hnodes. cbn [bind].
  destruct (mapM_Throw _ _ _ _ Hin Hbad) as (e' & ->). reflexivity.
Qed.

End MarkerList.

(** Three nearby earthquakes: one node, one marker. *)
Lemma one_marker_per_node_witness :
  exists valid (i0 i : @Index Demo.one_cell) bbox nodes,
    filterM valid_feature (elements Demo.quakes) = Ok valid
    /\ create (options (host := Demo.host)) = Ok i0
    /\ load i0 valid = Ok i
    /\ getClusters i bbox (Num.floor (ToNumber (host := Demo.host) Demo.zoom))
       = Ok nodes
    /\ Forall2 (fun node d => marker_of (host := Demo.host) i node = Ok d)
         nodes Demo.cluster_markers
    /\ Forall2 marker_matches nodes Demo.cluster_markers
    /\ List.length Demo.cluster_markers = List.length nodes.
Proof.
  apply (@one_marker_per_node Demo.host Demo.one_cell Demo.quakes Demo.world
           Demo.zoom Demo.cluster_markers).
  - reflexivity.
  - discriminate.
Defined.

(** Three good features and an index that adds a null node: nothing is
    shown. *)
Lemma one_bad_node_empties_the_result_witness :
  createClusterMarkers (host := Demo.host) (sc := DemoX.stray)
    Demo.quakes Demo.world Demo.zoom = Ok [].
Proof.
  apply (@one_bad_node_empties_the_result Demo.host DemoX.stray
           [Demo.tokyo; Demo.chiba; Demo.kanto] Demo.world Demo.zoom
           [Demo.tokyo; Demo.chiba; Demo.kanto] [] 
           [Demo.tokyo; Demo.chiba; Demo.kanto]
           (JNum (Fin (-180))) (JNum (Fin (-85))) (JNum (Fin 180))
           (JNum (Fin 85))
           [Demo.tokyo; Demo.chiba; Demo.kanto; JNull] JNull TypeError);
    try reflexivity.
  right. right. right. left. reflexivity.
Defined.

Section SamplePoints.
Context {host : Host} {sc : Supercluster}.
Context {contract : SuperclusterContract sc}.

Lemma leaf_point_fields (leaf p : JsVal) :
  leaf_point leaf = Ok p ->
  exists id magnitude location coordinates depth time timestamp url,
    p = JObj [("id", id); ("magnitude", magnitude); ("location", location);
              ("coordinates", coordinates); ("depth", depth);
              ("time", time); ("timestamp", timestamp); ("url", url)]
    /\ get2 leaf "properties" "id" = Ok id
    /\ get2 leaf "properties" "mag" = Ok magnitude
    /\ get2 leaf "properties" "place" = Ok location
    /\ get2 leaf "geometry" "coordinates" = Ok coordinates
    /\ get_index coordinates 2 = Ok depth
    /\ (t <- get2 leaf "properties" "time" ;; formatDate t) = Ok time
    /\ get2 leaf "properties" "time" = Ok timestamp
    /\ get2 leaf "properties" "url" = Ok url.
Proof.
  unfold leaf_point. intro H.
  apply bind_Ok in H as (id & Hid & H).
  apply bind_Ok in H as (magnitude & Hmag & H).
  apply bind_Ok in H as (location & Hloc & H).
  apply bind_Ok in H as (coordinates & Hcoords & H).
  apply bind_Ok in H as (c & Hc & H).
  apply bind_Ok in H as (depth & Hdepth & H).
  apply bind_Ok in H as (t & Ht & H).
  apply bind_Ok in H as (time & Htime & H).
  apply bind_Ok in H as (timestamp & Hts & H).
  apply bind_Ok in H as (url & Hurl & H).
  injection H as <-. rewrite Hcoords in Hc. injection Hc as <-.
  exists id, magnitude, location, coordinates, depth, time, timestamp, url.
  repeat split; try assumption.
  rewrite Ht. exact Htime.
Qed.

(** X5. With an index that honours its contract, and features that do not
    flag themselves as clusters, every sample point of a cluster
    descriptor is built from one of the input features, a well-formed
    one: magnitude, location, coordinates, depth, timestamp and url are
    read from that feature, time goes through [formatDate], and the id is
    the feature's [properties.id] (the feature's own [id] is not
    consulted). *)
Theorem cluster_points_are_input_features (earthquakes : JsVal)
  (bounds : Bounds) (zoom : JsVal) (markers : list JsVal) (d : JsVal)
  (points : list JsVal) (p : JsVal) :
  (forall f, In f (elements earthquakes) -> flags_cluster f = false) ->
  createClusterMarkers earthquakes bounds zoom = Ok markers ->
  In d markers ->
  get d "type" = Ok (JStr "cluster") ->
  get d "points" = Ok (JArr points) ->
  In p points ->
  exists f : JsVal,
    In f (elements earthquakes)
    /\ well_formed_feature f
    /\ leaf_point f = Ok p
    /\ get p "id" = get2 f "properties" "id"
    /\ get p "magnitude" = get2 f "properties" "mag"
    /\ get p "location" = get2 f "properties" "place"
    /\ get p "coordinates" = get2 f "geometry" "coordinates"
    /\ get p "depth" = (c <- get2 f "geometry" "coordinates" ;; get_index c 2)
    /\ get p "time" = (t <- get2 f "properties" "time" ;; formatDate t)
    /\ get p "timestamp" = get2 f "properties" "time"
    /\ get p "url" = get2 f "properties" "url".
Proof.
  intros Hplain Hrun Hin Htype Hpoints Hp.
  destruct (createClusterMarkers_markers _ _ _ _ _ Hrun Hin)
    as (valid & i0 & i & bbox & nodes & node & Hvalid & Hcreate & Hload
        & Hnodes & Hnode & Hd).
  destruct (marker_of_cases _ _ _ Hd) as (flag & Hflag & [[Hf Hs]|[Hf Hc]]).
  { apply (proj1 (type_is_single_or_cluster i node d)) in Hs. congruence. }
  destruct (node_kinds _ _ _ _ _ _ _ _ Hcreate Hload Hnodes Hnode)
    as [Hloaded | (n & id & Hcl & Hid & Hcount & Hn & Hleaves)].
  { destruct (filterM_In _ _ _ _ Hvalid Hloaded) as (Hfs & _).
    rewrite (flags_cluster_false _ _ (Hplain _ Hfs) Hflag) in Hf.
    discriminate. }
  destruct Hc as (id' & leaves & points' & coordinates & count & mag & avgM
                  & dep & avgD & Hid' & Hget & Hbuilt & _ & _ & _ & _
                  & _ & _ & ->).
  simpl in Hpoints. injection Hpoints as <-.
  rewrite Hid in Hid'. injection Hid' as <-.
  destruct (Hleaves 10%nat) as (leaves' & Hget' & _ & Hincl).
  rewrite Hget in Hget'. injection Hget' as <-.
  destruct (mapM_In _ _ _ _ Hbuilt Hp) as (leaf & Hleaf & Hlp).
  destruct (filterM_In _ _ _ _ Hvalid (Hincl _ Hleaf)) as (Hfs & Hok).
  destruct (leaf_point_fields _ _ Hlp)
    as (pid & magnitude & location & coords & depth & time & timestamp
        & url & -> & Hpid & Hmag & Hloc & Hcoords & Hdepth & Htime & Hts
        & Hurl).
  exists leaf. split; [exact Hfs|].
  split; [now apply valid_feature_well_formed|]. split; [exact Hlp|].
  rewrite Hpid, Hmag, Hloc, Hcoords, Htime, Hts, Hurl. cbn [bind].
  rewrite Hdepth. repeat split; reflexivity.
Qed.

End SamplePoints.

(** The second sample point of the example is built from the second
    feature. *)
Lemma cluster_points_are_input_features_witness :
  exists f : JsVal,
    In f (elements Demo.quakes)
    /\ well_formed_feature f
    /\ leaf_point (host := Demo.host) f = Ok DemoY.chiba_point
    /\ get DemoY.chiba_point "id" = get2 f "properties" "id"
    /\ get DemoY.chiba_point "magnitude" = get2 f "properties" "mag"
    /\ get DemoY.chiba_point "location" = get2 f "properties" "place"
    /\ get DemoY.chiba_point "coordinates"
       = get2 f "geometry" "coordinates"
    /\ get DemoY.chiba_point "depth"
       = (c <- get2 f "geometry" "coordinates" ;; get_index c 2)
    /\ get DemoY.chiba_point "time"
       = (t <- get2 f "properties" "time" ;;
          formatDate (host := Demo.host) t)
    /\ get DemoY.chiba_point "timestamp" = get2 f "properties" "time"
    /\ get DemoY.chiba_point "url" = get2 f "properties" "url".
Proof.
  apply (@cluster_points_are_input_features Demo.host Demo.one_cell
           one_cell_contract Demo.quakes Demo.world Demo.zoom
           Demo.cluster_markers Demo.cluster_marker DemoY.sample).
  - exact demo_features_plain.
  - reflexivity.
  - left. reflexivity.
  - reflexivity.
  - reflexivity.
  - right. left. reflexivity.
Defined.

(* ===================================================================== *)
(** ** Further properties of the marker element and of its callers *)
(* ===================================================================== *)

Lemma get_defined (v : JsVal) (k : string) :
  not_nullish v = true -> exists x, get v k = Ok x.
Proof.
  destruct v; simpl; try discriminate; intros _; eauto.
  - destruct (String.eqb k "length"); eauto.
  - destruct (String.eqb k "length"); eauto.
  - destruct (lookup k props); eauto.
Qed.

Lemma get_missing (v : JsVal) (k : string) :
  not_nullish v = false -> get v k = Throw TypeError.
Proof. destruct v; simpl; try discriminate; reflexivity. Qed.

Section Element.
Context {host : Host}.

Lemma createMarkerElement_of_data (type data : JsVal) :
  not_nullish data = true ->
  exists el m,
    createMarkerElement type data = Ok el
    /\ get data (if is_string type "single"
                 then "magnitude" else "avgMagnitude") = Ok m
    /\ get el "className"
       = Ok (JStr (if is_string type "single"
                   then "earthquake-marker" else "cluster-marker"))
    /\ get2 el "style" "backgroundColor"
       = Ok (JStr (getMagnitudeColor m))
    /\ get2 el "style" "width" = get2 el "style" "height".
Proof.
  intro H. unfold createMarkerElement, single_size, cluster_size.
  destruct (is_string type "single").
  - destruct (get_defined _ "magnitude" H) as (m & Hm). rewrite Hm.
    cbn [bind]. eexists. exists m. repeat split; reflexivity.
  - destruct (get_defined _ "count" H) as (c & Hc).
    destruct (get_defined _ "avgMagnitude" H) as (m & Hm).
    rewrite Hc, Hm. cbn [bind]. eexists. exists m.
    repeat split; reflexivity.
Qed.

(** X6. [createMarkerElement] throws exactly when its data is null or
    undefined, and then a TypeError; for any other data it returns an
    element of class 'earthquake-marker' when the type is 'single' and
    'cluster-marker' for every other type, filled with the colour of the
    data's magnitude, respectively average magnitude. *)
Theorem createMarkerElement_needs_data (type data : JsVal) :
  (not_nullish data = false ->
   createMarkerElement type data = Throw TypeError)
  /\ (not_nullish data = true ->
      exists el m,
        createMarkerElement type data = Ok el
        /\ get data (if is_string type "single"
                     then "magnitude" else "avgMagnitude") = Ok m
        /\ get el "className"
           = Ok (JStr (if is_string type "single"
                       then "earthquake-marker" else "cluster-marker"))
        /\ get2 el "style" "backgroundColor"
           = Ok (JStr (getMagnitudeColor m))
        /\ get2 el "style" "width" = get2 el "style" "height").
Proof.
  split; intro H.
  - unfold createMarkerElement, single_size, cluster_size.
    rewrite !(get_missing _ _ H). now destruct (is_string type "single").
  - now apply createMarkerElement_of_data.
Qed.

End Element.

Lemma createMarkerElement_needs_data_witness :
  createMarkerElement (host := Demo.host) (JStr "single") JUndefined
  = Throw TypeError
  /\ exists el m,
       createMarkerElement (host := Demo.host) (JStr "cluster")
         Demo.cluster_marker = Ok el
       /\ get Demo.cluster_marker
            (if is_string (JStr "cluster") "single"
             then "magnitude" else "avgMagnitude") = Ok m
       /\ get el "className"
          = Ok (JStr (if is_string (JStr "cluster") "single"
                      then "earthquake-marker" else "cluster-marker"))
       /\ get2 el "style" "backgroundColor"
          = Ok (JStr (getMagnitudeColor (host := Demo.host) m))
       /\ get2 el "style" "width" = get2 el "style" "height".
Proof.
  split.
  - apply (proj1 (@createMarkerElement_needs_data Demo.host
                    (JStr "single") JUndefined)). reflexivity.
  - apply (proj2 (@createMarkerElement_needs_data Demo.host
                    (JStr "cluster") Demo.cluster_marker)). reflexivity.
Defined.

(* ===================================================================== *)
(** ** Popups *)
(* ===================================================================== *)

Lemma truthy_is_defined (v : JsVal) :
  truthy v = true -> not_nullish v = true.
Proof. destruct v; simpl; congruence. Qed.

Lemma or_test_false (a b : Exc bool) :
  a ||| b = Ok false <-> a = Ok false /\ b = Ok false.
Proof.
  unfold or_test. destruct a as [[|]|e]; simpl; split; intros;
    try tauto; try discriminate; destruct H; try discriminate; auto.
Qed.

Lemma Ok_JStr_eq (a b : string) :
  Ok (JStr a) = Ok (JStr b) -> a = b.
Proof. congruence. Qed.

Section SinglePopup.
Context {host : Host} {fmt : NumberFormat}.

Lemma call_toFixed_number (v : JsVal) :
  (forall n, v = JNum n -> call_toFixed v 1 = Ok (JStr (toFixed n 1)))
  /\ (is_num v = false -> call_toFixed v 1 = Throw TypeError).
Proof.
  split.
  - intros n ->. reflexivity.
  - destruct v; simpl; congruence.
Qed.

Lemma single_popup_differs (color magnitude location depth time link : string) :
  single_popup_html color magnitude location depth time link
  <> error_popup_html.
Proof.
  unfold single_popup_html, error_popup_html, dq. simpl. discriminate.
Qed.

Lemma single_popup_quake (data e : JsVal) :
  get data "earthquake" = Ok e ->
  or_else e (Ok data) = Ok (popup_quake data).
Proof.
  intro H. unfold popup_quake, or_else. rewrite H. now destruct (truthy e).
Qed.

Lemma createPopupContent_string (type data : JsVal) :
  exists html, createPopupContent type data = Ok (JStr html).
Proof.
  unfold createPopupContent.
  destruct (popup_body type data) as [v|e] eqn:E; cbn [try_catch];
    [|eauto].
  unfold popup_body in E. destruct (is_string type "single").
  - unfold single_popup in E.
    apply bind_Ok in E as (? & _ & E). apply bind_Ok in E as (? & _ & E).
    apply bind_Ok in E as ([|] & _ & E); [discriminate|].
    repeat (apply bind_Ok in E as (? & _ & E)).
    injection E as <-. eauto.
  - unfold cluster_popup in E.
    apply bind_Ok in E as ([|] & _ & E); [discriminate|].
    repeat (apply bind_Ok in E as (? & _ & E)).
    injection E as <-. eauto.
Qed.

(** The popup of an earthquake that can be formatted. *)
Lemma single_popup_shown (data : JsVal) :
  showable (popup_quake data) = true ->
  exists n d l t u,
    get (popup_quake data) "magnitude" = Ok (JNum n)
    /\ get (popup_quake data) "depth" = Ok d
    /\ get (popup_quake data) "location" = Ok l
    /\ get (popup_quake data) "time" = Ok t
    /\ get (popup_quake data) "url" = Ok u
    /\ single_popup data
       = Ok (JStr (single_popup_html (getMagnitudeColor (JNum n))
                     (toFixed n 1)
                     (if truthy l then to_string l else "Location unknown")
                     (depth_text d)
                     (if truthy t then to_string t else "Time unknown")
                     (if truthy u then detail_link_html (to_string u)
                      else ""))).
Proof.
  intro Hgood. unfold single_popup.
  destruct (get data "earthquake") as [e|err] eqn:He.
  2:{ unfold popup_quake in Hgood. rewrite He in Hgood. discriminate. }
  cbn [bind]. rewrite (single_popup_quake _ _ He). cbn [bind].
  set (quake := popup_quake data) in *.
  unfold showable in Hgood.
  apply andb_true_iff in Hgood as (Hq & Hgood).
  destruct (get_defined quake "location" (truthy_is_defined _ Hq))
    as (l & Hl).
  destruct (get_defined quake "time" (truthy_is_defined _ Hq))
    as (t & Ht).
  destruct (get_defined quake "url" (truthy_is_defined _ Hq))
    as (u & Hu).
  destruct (get quake "magnitude") as [m|] eqn:Hm; [|discriminate].
  destruct (get quake "depth") as [d|] eqn:Hd; [|discriminate].
  apply andb_true_iff in Hgood as (Hnum & Hdepth).
  destruct m as [| | |n| | |]; try discriminate.
  exists n, d, l, t, u. split; [reflexivity|]. split; [reflexivity|].
  split; [exact Hl|]. split; [exact Ht|]. split; [exact Hu|].
  rewrite Hq. unfold or_test. cbn [bind negb is_undefined call_toFixed].
  rewrite Hl, Ht, Hu. unfold fixed_or_unknown. rewrite Hd. cbn [bind].
  assert (Hdv : (if truthy d then call_toFixed d 1 else Ok (JStr "?"))
                = Ok (JStr (depth_text d))).
  { destruct d as [| |b|x|s|a|o]; simpl in Hdepth |- *;
      try reflexivity; try discriminate.
    - now destruct b.
    - now destruct (Num.truthy x).
    - destruct (negb (String.eqb s "")); [discriminate | reflexivity]. }
  rewrite Hdv. cbn [bind]. unfold or_else.
  destruct (truthy l), (truthy t), (truthy u); reflexivity.
Qed.

(** X7. [createPopupContent] never throws.  For the type 'single' it
    shows [data.earthquake], or [data] itself when that is missing, and
    it returns the error panel exactly when that earthquake cannot be
    formatted: the data is null or undefined, or the earthquake is falsy,
    or its magnitude is not a number, or its depth is truthy and not a
    number.  In every other case the heading carries the colour of the
    magnitude and missing location and time are replaced by their
    defaults. *)
Theorem single_popup_or_error_panel (data : JsVal) :
  (forall type other, exists html,
      createPopupContent type other = Ok (JStr html))
  /\ (showable (popup_quake data) = false ->
      createPopupContent (JStr "single") data = Ok (JStr error_popup_html))
  /\ (showable (popup_quake data) = true ->
      exists n location depth time link,
        get (popup_quake data) "magnitude" = Ok (JNum n)
        /\ (forall l, get (popup_quake data) "location" = Ok l ->
                      location = if truthy l then to_string l
                                 else "Location unknown")
        /\ (forall t, get (popup_quake data) "time" = Ok t ->
                      time = if truthy t then to_string t
                             else "Time unknown")
        /\ createPopupContent (JStr "single") data
           = Ok (JStr (single_popup_html (getMagnitudeColor (JNum n))
                         (toFixed n 1) location depth time link))
        /\ createPopupContent (JStr "single") data
           <> Ok (JStr error_popup_html)).
Proof.
  split; [|split].
  - intros type other. apply createPopupContent_string.
  - intro Hbad. unfold createPopupContent, popup_body. cbn [is_string].
    simpl String.eqb. cbv iota. unfold single_popup.
    destruct (get data "earthquake") as [e|err] eqn:He; [|reflexivity].
    cbn [bind]. rewrite (single_popup_quake _ _ He). cbn [bind].
    set (quake := popup_quake data) in *.
    unfold showable in Hbad.
    destruct (truthy quake) eqn:Hq; [|reflexivity].
    destruct (get_defined quake "magnitude" (truthy_is_defined _ Hq))
      as (m & Hm).
    destruct (get_defined quake "depth" (truthy_is_defined _ Hq))
      as (d & Hd).
    destruct (get_defined quake "location" (truthy_is_defined _ Hq))
      as (l & Hl).
    rewrite Hm, Hd in Hbad. simpl in Hbad.
    unfold or_test. cbn [bind negb]. rewrite Hm. cbn [bind].
    destruct (is_undefined m) eqn:Hu; [reflexivity|].
    destruct (is_num m) eqn:Hnum.
    + destruct m; try discriminate. cbn [call_toFixed bind].
      rewrite Hl. cbn [bind].
      destruct (or_else l (Ok (JStr "Location unknown"))) eqn:Hor;
        [|reflexivity].
      cbn [bind]. unfold fixed_or_unknown. rewrite Hd. cbn [bind].
      simpl in Hbad. destruct (truthy d); [|discriminate].
      simpl in Hbad. cbn [bind].
      rewrite (proj2 (call_toFixed_number d) Hbad). reflexivity.
    + rewrite (proj2 (call_toFixed_number m) Hnum). reflexivity.
  - intro Hgood.
    destruct (single_popup_shown data Hgood)
      as (n & d & l & t & u & Hm & Hd & Hl & Ht & Hu & Hpop).
    unfold createPopupContent, popup_body. cbn [is_string].
    simpl String.eqb. cbv iota. rewrite Hpop. cbn [try_catch].
    eexists n, _, _, _, _. split; [exact Hm|].
    split; [intros l' E; rewrite Hl in E; injection E as <-; reflexivity|].
    split; [intros t' E; rewrite Ht in E; injection E as <-; reflexivity|].
    split; [reflexivity|].
    intro H. apply Ok_JStr_eq in H. now apply single_popup_differs in H.
Qed.

End SinglePopup.

Lemma single_popup_or_error_panel_witness :
  createPopupContent (host := Demo.host) (fmt := DemoX.format) (JStr "single") JNull
  = Ok (JStr error_popup_html)
  /\ createPopupContent (host := Demo.host) (fmt := DemoX.format)
       (JStr "single") Demo.single_marker
     <> Ok (JStr error_popup_html).
Proof.
  split.
  - apply (proj1 (proj2 (@single_popup_or_error_panel Demo.host
                           DemoX.format JNull))). reflexivity.
  - destruct (proj2 (proj2 (@single_popup_or_error_panel Demo.host
                              DemoX.format Demo.single_marker)))
      as (n & location & depth & time & link & _ & _ & _ & _ & Hne).
    + reflexivity.
    + exact Hne.
Defined.

Lemma is_number_length (n : nat) :
  is_number (JNum (of_nat n)) 0 = Nat.eqb n 0.
Proof.
  unfold is_number, of_nat. destruct n.
  - reflexivity.
  - apply not_true_is_false. intro H. apply Qeq_bool_iff in H.
    apply (proj1 (inject_Z_injective _ _)) in H. discriminate.
Qed.

Section ClusterPopup.
Context {host : Host} {fmt : NumberFormat}.

Lemma cluster_popup_of_points (ps : list (string * JsVal))
  (l : list JsVal) :
  lookup "points" ps = Some (JArr l) ->
  cluster_popup (JObj ps) =
    match l with
    | [] => Throw (Error "Invalid cluster data for popup")
    | _ :: _ =>
        let points := firstn 5 l in
        c <- get (JObj ps) "count" ;;
        let remaining := js_sub c (JNum (of_nat (List.length points))) in
        count <- get (JObj ps) "count" ;;
        avgMagnitude <- fixed_or_unknown (JObj ps) "avgMagnitude" ;;
        avgDepth <- fixed_or_unknown (JObj ps) "avgDepth" ;;
        rows <- mapM cluster_row points ;;
        Ok (JStr (cluster_popup_html (to_string count)
                    (to_string avgMagnitude) (to_string avgDepth)
                    (cluster_list_html (join_empty rows)
                       (if gt_literal remaining 0
                        then more_html (to_string remaining) else ""))))
    end.
Proof.
  intro H. unfold cluster_popup.
  rewrite !(get_lookup _ _ _ H). unfold or_test.
  cbn [bind truthy negb isArray]. cbv iota.
  change (get (JArr l) "length") with (Ok (JNum (of_nat (List.length l)))).
  cbn [bind]. rewrite is_number_length. destruct l as [|x l]; [reflexivity|].
  cbn [List.length Nat.eqb bind elements]. cbv zeta.
  assert (Hlt : Nat.ltb 0 (List.length (firstn 5 (x :: l))) = true)
    by reflexivity.
  rewrite Hlt. clear Hlt.
  set (points := firstn 5 (x :: l)).
  destruct (get (JObj ps) "count") as [c|]; cbn [bind]; [|reflexivity].
  destruct (fixed_or_unknown (JObj ps) "avgMagnitude"); cbn [bind];
    [|reflexivity].
  destruct (fixed_or_unknown (JObj ps) "avgDepth"); cbn [bind];
    [|reflexivity].
  destruct (mapM cluster_row points); reflexivity.
Qed.

(** X8. A cluster popup lists the first five points and nothing of the
    others: cutting the points of the data down to their first five does
    not change the popup, whatever the sixth and later points are. *)
Theorem cluster_popup_shows_five (type : JsVal)
  (ps : list (string * JsVal)) (l : list JsVal) :
  is_string type "single" = false ->
  lookup "points" ps = Some (JArr l) ->
  createPopupContent type (JObj ps)
  = createPopupContent type
      (JObj (update "points" (JArr (firstn 5 l)) ps)).
Proof.
  intros Hty Hl. unfold createPopupContent, popup_body. rewrite Hty.
  f_equal.
  rewrite (cluster_popup_of_points ps l Hl).
  rewrite (cluster_popup_of_points _ (firstn 5 l)
             (lookup_update_same _ _ _)).
  assert (Hother : forall k, k <> "points" ->
             get (JObj (update "points" (JArr (firstn 5 l)) ps)) k
             = get (JObj ps) k).
  { intros k Hk. now apply get_update_other. }
  destruct l as [|x l]; [reflexivity|].
  change (firstn 5 (x :: l)) with (x :: firstn 4 l) at 3.
  cbv zeta. change (x :: firstn 4 l) with (firstn 5 (x :: l)).
  rewrite firstn_firstn. cbn [Nat.min].
  unfold fixed_or_unknown. rewrite !Hother by discriminate.
  reflexivity.
Qed.

End ClusterPopup.

Lemma cluster_popup_shows_five_witness :
  createPopupContent (host := Demo.host) (fmt := DemoX.format) (JStr "cluster")
    (JObj [("count", JNum (Fin 7));
           ("points",
             JArr [DemoY.chiba_point; DemoY.chiba_point; DemoY.chiba_point;
                   DemoY.chiba_point; DemoY.chiba_point; JNull; JNull])])
  = createPopupContent (host := Demo.host) (fmt := DemoX.format) (JStr "cluster")
      (JObj [("count", JNum (Fin 7));
             ("points",
               JArr [DemoY.chiba_point; DemoY.chiba_point;
                     DemoY.chiba_point; DemoY.chiba_point;
                     DemoY.chiba_point])]).
Proof.
  apply (@cluster_popup_shows_five Demo.host DemoX.format (JStr "cluster")
           [("count", JNum (Fin 7));
            ("points",
              JArr [DemoY.chiba_point; DemoY.chiba_point; DemoY.chiba_point;
                    DemoY.chiba_point; DemoY.chiba_point; JNull; JNull])]
           [DemoY.chiba_point; DemoY.chiba_point; DemoY.chiba_point;
            DemoY.chiba_point; DemoY.chiba_point; JNull; JNull]);
    reflexivity.
Defined.

Lemma append_assoc (a b c : string) : (a ++ b) ++ c = a ++ (b ++ c).
Proof. induction a as [|x a IH]; simpl; [reflexivity | now rewrite IH]. Qed.

Lemma single_popup_split (color magnitude location depth time link : string) :
  single_popup_html color magnitude location depth time link
  = before_location color magnitude
    ++ location ++ after_location depth time link.
Proof.
  unfold single_popup_html, before_location, after_location.
  rewrite !append_assoc. reflexivity.
Qed.

Section PopupText.
Context {host : Host} {fmt : NumberFormat}.

Lemma popup_quake_itself (ps : list (string * JsVal)) :
  lookup "earthquake" ps = None -> popup_quake (JObj ps) = JObj ps.
Proof. intro H. unfold popup_quake. simpl. now rewrite H. Qed.

(** X9. A single popup inserts the location as it is: around a non-empty
    location string the text of the popup is fixed by the other fields,
    and the string itself appears between the two parts unchanged, so
    markup in a place name reaches the page. *)
Theorem popup_inserts_location_as_it_is (ps : list (string * JsVal)) :
  lookup "earthquake" ps = None ->
  showable (JObj ps) = true ->
  exists before after : string,
    forall s : string,
      s <> "" ->
      createPopupContent (JStr "single")
        (JObj (update "location" (JStr s) ps))
      = Ok (JStr (before ++ s ++ after)).
Proof.
  intros He Hgood.
  pose proof Hgood as Hgood0.
  rewrite <- (popup_quake_itself ps He) in Hgood.
  destruct (single_popup_shown _ Hgood)
    as (n & d & l & t & u & Hm & Hd & _ & Ht & Hu & _).
  rewrite (popup_quake_itself ps He) in Hm, Hd, Ht, Hu.
  exists (before_location (getMagnitudeColor (JNum n)) (toFixed n 1)),
    (after_location (depth_text d)
       (if truthy t then to_string t else "Time unknown")
       (if truthy u then detail_link_html (to_string u) else "")).
  intros s Hs.
  set (ps' := update "location" (JStr s) ps).
  assert (Hother : forall k, k <> "location" ->
                             get (JObj ps') k = get (JObj ps) k).
  { intros k Hk. now apply get_update_other. }
  assert (He' : lookup "earthquake" ps' = None).
  { unfold ps'. now rewrite lookup_update_other by discriminate. }
  assert (Hgood' : showable (popup_quake (JObj ps')) = true).
  { rewrite (popup_quake_itself ps' He'). unfold showable in *.
    rewrite !Hother by discriminate. exact Hgood0. }
  destruct (single_popup_shown _ Hgood')
    as (n' & d' & l' & t' & u' & Hm' & Hd' & Hl' & Ht' & Hu' & Hpop).
  rewrite (popup_quake_itself ps' He') in Hm', Hd', Hl', Ht', Hu'.
  rewrite Hother in Hm', Hd', Ht', Hu' by discriminate.
  rewrite Hm in Hm'. injection Hm' as <-.
  rewrite Hd in Hd'. injection Hd' as <-.
  rewrite Ht in Ht'. injection Ht' as <-.
  rewrite Hu in Hu'. injection Hu' as <-.
  unfold ps' in Hl'. rewrite get_update_same in Hl'. injection Hl' as <-.
  unfold createPopupContent, popup_body. cbn [is_string].
  simpl String.eqb. cbv iota. rewrite Hpop. cbn [try_catch].
  rewrite single_popup_split. cbn [truthy to_string].
  apply String.eqb_neq in Hs. rewrite Hs. reflexivity.
Qed.

Lemma list_item_fields (feature item : JsVal) :
  list_item feature = Ok item ->
  exists id magnitude location coordinates depth time timestamp url,
    item = JObj [("id", id); ("magnitude", magnitude);
                 ("location", location); ("coordinates", coordinates);
                 ("depth", depth); ("time", time);
                 ("timestamp", timestamp); ("url", url)]
    /\ get feature "id" = Ok id
    /\ get2 feature "properties" "mag" = Ok magnitude
    /\ get2 feature "properties" "place" = Ok location
    /\ get2 feature "geometry" "coordinates" = Ok coordinates
    /\ get_index coordinates 2 = Ok depth
    /\ (t <- get2 feature "properties" "time" ;; formatDate t) = Ok time
    /\ get2 feature "properties" "time" = Ok timestamp
    /\ get2 feature "properties" "url" = Ok url.
Proof.
  unfold list_item. intro H.
  apply bind_Ok in H as (id & Hid & H).
  apply bind_Ok in H as (magnitude & Hmag & H).
  apply bind_Ok in H as (location & Hloc & H).
  apply bind_Ok in H as (coordinates & Hcoords & H).
  apply bind_Ok in H as (c & Hc & H).
  apply bind_Ok in H as (depth & Hdepth & H).
  apply bind_Ok in H as (t & Ht & H).
  apply bind_Ok in H as (time & Htime & H).
  apply bind_Ok in H as (timestamp & Hts & H).
  apply bind_Ok in H as (url & Hurl & H).
  injection H as <-. rewrite Hcoords in Hc. injection Hc as <-.
  exists id, magnitude, location, coordinates, depth, time, timestamp, url.
  repeat split; try assumption.
  rewrite Ht. exact Htime.
Qed.

(** X10. The popup that opens when an earthquake is picked in the list is
    the popup of the single marker of the same feature, character for
    character: the two records differ in their id only, which no popup
    shows. *)
Theorem list_and_marker_popups_agree (feature item earthquake : JsVal) :
  list_item feature = Ok item ->
  single_earthquake feature = Ok earthquake ->
  selected_popup item = createPopupContent (JStr "single") earthquake.
Proof.
  intros Hitem Heq.
  destruct (list_item_fields _ _ Hitem)
    as (id & m & l & c & d & t & ts & u & -> & _ & Hm & Hl & Hc & Hd & Ht
        & Hts & Hu).
  destruct (single_earthquake_fields _ _ Heq)
    as (id' & m' & l' & c' & d' & t' & ts' & u' & -> & _ & Hm' & Hl' & Hc'
        & Hd' & Ht' & Hts' & Hu').
  rewrite Hm in Hm'. injection Hm' as <-.
  rewrite Hl in Hl'. injection Hl' as <-.
  rewrite Hc in Hc'. injection Hc' as <-.
  rewrite Hd in Hd'. injection Hd' as <-.
  rewrite Ht in Ht'. injection Ht' as <-.
  rewrite Hu in Hu'. injection Hu' as <-.
  unfold selected_popup, createPopupContent, popup_body.
  cbn [is_string]. simpl String.eqb. cbv iota. f_equal.
Qed.

End PopupText.

Lemma popup_inserts_location_as_it_is_witness :
  exists before after : string,
    forall s : string,
      s <> "" ->
      createPopupContent (host := Demo.host) (fmt := DemoX.format)
        (JStr "single")
        (JObj (update "location" (JStr s) DemoY.tokyo_fields))
      = Ok (JStr (before ++ s ++ after)).
Proof.
  apply (@popup_inserts_location_as_it_is Demo.host DemoX.format
           DemoY.tokyo_fields); reflexivity.
Defined.

Lemma list_and_marker_popups_agree_witness :
  selected_popup (host := Demo.host) (fmt := DemoX.format) DemoY.tokyo_item
  = createPopupContent (host := Demo.host) (fmt := DemoX.format)
      (JStr "single") DemoY.tokyo_quake.
Proof.
  apply (@list_and_marker_popups_agree Demo.host DemoX.format Demo.tokyo);
    reflexivity.
Defined.

Section Drawing.
Context {host : Host} {fmt : NumberFormat} {sc : Supercluster}.

(** X11. What [updateMarkers] does with the markers cannot fail before
    mapbox-gl is involved: for every marker that [createClusterMarkers]
    returns, the data passed on is an object, [createMarkerElement]
    returns an element of the class of the marker's type,
    [createPopupContent] returns a text, and the popup offset is five
    times the magnitude of a single marker and 30 for a cluster. *)
Theorem returned_markers_can_be_drawn (earthquakes : JsVal)
  (bounds : Bounds) (zoom : JsVal) (markers : list JsVal) (d : JsVal) :
  createClusterMarkers earthquakes bounds zoom = Ok markers ->
  In d markers ->
  exists (type : string) (data el offset : JsVal) (html : string),
    get d "type" = Ok (JStr type)
    /\ (type = "single" \/ type = "cluster")
    /\ marker_data d = Ok data
    /\ not_nullish data = true
    /\ createMarkerElement (JStr type) data = Ok el
    /\ get el "className"
       = Ok (JStr (if String.eqb type "single"
                   then "earthquake-marker" else "cluster-marker"))
    /\ createPopupContent (JStr type) data = Ok (JStr html)
    /\ popup_offset d = Ok offset
    /\ (type = "cluster" -> offset = JNum (Fin 30))
    /\ (type = "single" ->
        exists m, get d "magnitude" = Ok m
                  /\ offset = js_mul m (JNum (Fin 5))).
Proof.
  intros Hrun Hin.
  destruct (createClusterMarkers_markers _ _ _ _ _ Hrun Hin)
    as (valid & i0 & i & bbox & nodes & node & _ & _ & _ & _ & _ & Hd).
  destruct (marker_of_cases _ _ _ Hd) as (flag & Hflag & [[Hf Hs]|[Hf Hc]]).
  - destruct Hs as (eq & coordinates & magnitude & depth & Heq & _ & _ & _
                    & ->).
    destruct (single_earthquake_fields _ _ Heq)
      as (? & ? & ? & ? & ? & ? & ? & ? & -> & _).
    match goal with
    | |- context [("earthquake", ?e)] => set (quake := e)
    end.
    destruct (createMarkerElement_of_data (JStr "single") quake eq_refl)
      as (el & m & Hel & _ & Hclass & _).
    destruct (createPopupContent_string (JStr "single") quake)
      as (html & Hhtml).
    exists "single", quake, el, (js_mul magnitude (JNum (Fin 5))), html.
    repeat split; try reflexivity; try assumption; auto.
    + discriminate.
    + intros _. exists magnitude. split; reflexivity.
  - destruct Hc as (? & ? & ? & ? & ? & ? & ? & ? & ? & _ & _ & _ & _ & _
                    & _ & _ & _ & _ & ->).
    match goal with
    | |- context [get ?m "type"] => set (marker := m)
    end.
    destruct (createMarkerElement_of_data (JStr "cluster") marker eq_refl)
      as (el & m & Hel & _ & Hclass & _).
    destruct (createPopupContent_string (JStr "cluster") marker)
      as (html & Hhtml).
    exists "cluster", marker, el, (JNum (Fin 30)), html.
    repeat split; try reflexivity; try assumption; auto.
    discriminate.
Qed.

End Drawing.

Lemma returned_markers_can_be_drawn_witness :
  exists (type : string) (data el offset : JsVal) (html : string),
    get Demo.cluster_marker "type" = Ok (JStr type)
    /\ (type = "single" \/ type = "cluster")
    /\ marker_data Demo.cluster_marker = Ok data
    /\ not_nullish data = true
    /\ createMarkerElement (host := Demo.host) (JStr type) data = Ok el
    /\ get el "className"
       = Ok (JStr (if String.eqb type "single"
                   then "earthquake-marker" else "cluster-marker"))
    /\ createPopupContent (host := Demo.host) (fmt := DemoX.format)
         (JStr type) data = Ok (JStr html)
    /\ popup_offset (host := Demo.host) Demo.cluster_marker = Ok offset
    /\ (type = "cluster" -> offset = JNum (Fin 30))
    /\ (type = "single" ->
        exists m, get Demo.cluster_marker "magnitude" = Ok m
                  /\ offset = js_mul (host := Demo.host) m (JNum (Fin 5))).
Proof.
  apply (@returned_markers_can_be_drawn Demo.host DemoX.format
           Demo.one_cell Demo.quakes Demo.world Demo.zoom
           Demo.cluster_markers).
  - reflexivity.
  - left. reflexivity.
Defined.

(* ===================================================================== *)
(** ** Legend and list *)
(* ===================================================================== *)

Section LegendAndList.
Context {host : Host}.

Lemma color_is_one_of_five (v : JsVal) :
  In (getMagnitudeColor v)
     ["#d32f2f"; "#f57c00"; "#ffa000"; "#fbc02d"; "#7cb342"].
Proof.
  unfold getMagnitudeColor.
  destruct (ge_literal v 7); [simpl; auto|].
  destruct (ge_literal v 6); [simpl; auto|].
  destruct (ge_literal v 5); [simpl; auto|].
  destruct (ge_literal v 4); simpl; auto 6.
Qed.

(** X12. The legend and the markers use the same colours: whatever value
    a marker is coloured for, its colour is the colour of a row of the
    legend; every row of the legend is the colour of some magnitude; and
    no colour appears in two of its five rows.  [createLegend] itself
    cannot throw. *)
Theorem legend_has_the_marker_colours :
  (forall v : JsVal,
      exists row, In row legend_magnitudes
                  /\ get row "color" = Ok (JStr (getMagnitudeColor v)))
  /\ (forall row, In row legend_magnitudes ->
        exists q : Q,
          get row "color" = Ok (JStr (getMagnitudeColor (JNum (Fin q)))))
  /\ (NoDup (List.map (fun row => get row "color") legend_magnitudes)
      /\ List.length legend_magnitudes = 5%nat)
  /\ (exists el html,
        createLegend = Ok el
        /\ get el "className" = Ok (JStr "map-legend")
        /\ get el "innerHTML" = Ok (JStr html)).
Proof.
  split; [|split; [|split]].
  - intro v. pose proof (color_is_one_of_five v) as H.
    unfold legend_magnitudes.
    destruct H as [<- | [<- | [<- | [<- | [<- | []]]]]];
      [exists (nth 0 legend_magnitudes JNull)
      |exists (nth 1 legend_magnitudes JNull)
      |exists (nth 2 legend_magnitudes JNull)
      |exists (nth 3 legend_magnitudes JNull)
      |exists (nth 4 legend_magnitudes JNull)];
      (split; [simpl; auto 6 | reflexivity]).
  - intros row [<- | [<- | [<- | [<- | [<- | []]]]]];
      [exists 7 | exists 6 | exists 5 | exists 4 | exists 3]; reflexivity.
  - split; [|reflexivity].
    repeat constructor; simpl; intuition discriminate.
  - eexists. eexists. split; [reflexivity|]. split; reflexivity.
Qed.

(** X13. The list and the map colour the same earthquake differently
    except for the strongest ones: the colour of a row of the list is the
    colour of the marker exactly for magnitudes of 7 and more. *)
Theorem list_and_marker_colours_agree_from_seven (q : Q) :
  list_magnitude_color (JNum (Fin q)) = getMagnitudeColor (JNum (Fin q))
  <-> 7 <= q.
Proof.
  unfold list_magnitude_color. rewrite color_of_number.
  rewrite !ge_literal_number.
  destruct (Qle_bool_reflect 7 q), (Qle_bool_reflect 6 q),
    (Qle_bool_reflect 5 q), (Qle_bool_reflect 4 q);
    split; intro H; try reflexivity; try assumption; try discriminate;
    exfalso; lra.
Qed.

End LegendAndList.

Lemma list_and_marker_colours_agree_from_seven_witness :
  7 <= 72 # 10
  /\ list_magnitude_color (host := Demo.host) (JNum (Fin (72 # 10)))
     = getMagnitudeColor (host := Demo.host) (JNum (Fin (72 # 10))).
Proof.
  assert (H : 7 <= 72 # 10) by (unfold Qle; simpl; lia).
  split; [exact H|].
  apply (proj2 (list_and_marker_colours_agree_from_seven
                  (host := Demo.host) (72 # 10)) H).
Defined.

(* ===================================================================== *)
(** ** The sorted list *)
(* ===================================================================== *)

Lemma not_smaller_trans (a b c : JsVal) :
  not_smaller a b -> not_smaller b c -> not_smaller a c.
Proof.
  intros (x & y & Ha & Hb & Hxy) (y' & z & Hb' & Hc & Hyz).
  rewrite Hb in Hb'. injection Hb' as <-.
  exists x, z. repeat split; try assumption. lra.
Qed.

Section SortedList.
Context {host : Host} {fmt : NumberFormat}.

Lemma by_magnitude_finite (a b : JsVal) (x y : Q) :
  magnitude_of a = Some x -> magnitude_of b = Some y ->
  by_magnitude a b = Ok (JNum (Fin (y + - x))).
Proof.
  unfold magnitude_of, by_magnitude. intros Ha Hb.
  destruct (get a "magnitude") as [[| | |[| | |qa]| | |]|];
    try discriminate Ha.
  destruct (get b "magnitude") as [[| | |[| | |qb]| | |]|];
    try discriminate Hb.
  injection Ha as ->. injection Hb as ->. reflexivity.
Qed.

Lemma positive_difference (x y : Q) :
  gt_literal (JNum (Fin (y + - x))) 0 = negb (Qle_bool (y + - x) 0).
Proof. reflexivity. Qed.

Lemma insert_by_sorted (x : JsVal) (l : list JsVal) :
  has_magnitude x -> Forall has_magnitude l ->
  StronglySorted not_smaller l ->
  exists l', insert_by by_magnitude x l = Ok l'
             /\ Permutation (x :: l) l'
             /\ StronglySorted not_smaller l'.
Proof.
  intros [qx Hx] Hall Hsorted.
  induction l as [|y rest IH].
  - exists [x]. repeat split; [reflexivity|].
    constructor; constructor.
  - inversion Hall as [|? ? [qy Hy] Hrest]; subst.
    inversion Hsorted as [|? ? Hs Hy_rest]; subst.
    cbn [insert_by]. rewrite (by_magnitude_finite x y qx qy Hx Hy).
    cbn [bind]. rewrite positive_difference.
    destruct (Qle_bool_reflect (qy + - qx) 0) as [Hle | Hgt]; cbn [negb].
    + exists (x :: y :: rest). repeat split; [reflexivity|].
      constructor; [assumption|].
      assert (Hxy : not_smaller x y).
      { exists qx, qy. repeat split; try assumption. lra. }
      constructor; [assumption|].
      eapply Forall_impl; [|exact Hy_rest].
      intros z Hz. exact (not_smaller_trans x y z Hxy Hz).
    + destruct (IH Hrest Hs) as (rest' & Hins & Hperm & Hs').
      rewrite Hins. cbn [bind]. exists (y :: rest').
      split; [reflexivity|]. split.
      * eapply perm_trans; [apply perm_swap|]. now apply perm_skip.
      * constructor; [assumption|].
        eapply Permutation_Forall; [exact Hperm|].
        constructor; [|assumption].
        exists qy, qx. repeat split; try assumption. lra.
Qed.

Lemma sort_by_sorted (l : list JsVal) :
  Forall has_magnitude l ->
  exists l', sort_by by_magnitude l = Ok l'
             /\ Permutation l l'
             /\ StronglySorted not_smaller l'.
Proof.
  induction l as [|x rest IH]; intro Hall.
  - exists []. repeat split; [reflexivity|constructor].
  - inversion Hall as [|? ? Hx Hrest]; subst.
    destruct (IH Hrest) as (sorted & Hsort & Hperm & Hs).
    assert (Hall' : Forall has_magnitude sorted)
      by (eapply Permutation_Forall; eassumption).
    destruct (insert_by_sorted x sorted Hx Hall' Hs)
      as (l' & Hins & Hperm' & Hs').
    exists l'. cbn [sort_by]. rewrite Hsort. cbn [bind].
    split; [exact Hins|]. split; [|exact Hs'].
    eapply perm_trans; [|exact Hperm']. now apply perm_skip.
Qed.

Lemma mapM_Forall (f : JsVal -> Exc JsVal) (P : JsVal -> Prop)
  (l : list JsVal) :
  Forall (fun x => exists y, f x = Ok y /\ P y) l ->
  exists l', mapM f l = Ok l' /\ Forall P l'.
Proof.
  induction 1 as [|x rest (y & Hy & Py) _ (rest' & Hrest & Hall)].
  - exists []. split; [reflexivity|constructor].
  - exists (y :: rest'). cbn [mapM]. rewrite Hy. cbn [bind].
    rewrite Hrest. split; [reflexivity|]. now constructor.
Qed.

(** X14. When every feature gives a list entry with a finite magnitude,
    [sortedEarthquakes] does not throw, its entries are the entries built
    from the features, each as often as it was built, and they stand in
    the order of falling magnitude: no entry is followed, anywhere later
    in the list, by one of larger magnitude. *)
Theorem list_is_sorted_by_falling_magnitude (earthquakes : list JsVal) :
  Forall (fun feature =>
            exists item, list_item feature = Ok item /\ has_magnitude item)
         earthquakes ->
  exists items sorted,
    mapM list_item earthquakes = Ok items
    /\ sortedEarthquakes earthquakes = Ok sorted
    /\ Permutation items sorted
    /\ StronglySorted not_smaller sorted
    /\ List.length sorted = List.length earthquakes.
Proof.
  intro H. destruct (mapM_Forall _ _ _ H) as (items & Hitems & Hall).
  destruct (sort_by_sorted items Hall) as (sorted & Hsort & Hperm & Hs).
  exists items, sorted. unfold sortedEarthquakes. rewrite Hitems.
  cbn [bind]. repeat split; try assumption.
  rewrite <- (Permutation_length Hperm). now apply mapM_length in Hitems.
Qed.

(** X15. Validation for the map does not make a feature fit for the list.
    A feature that passes the validation of [createClusterMarkers] always
    gives a list entry, with the magnitude and the third coordinate of the
    feature; but the row of that entry can be rendered exactly when both
    are numbers, and rendering throws a TypeError otherwise. *)
Theorem valid_feature_row_needs_numbers (feature : JsVal) :
  valid_feature feature = Ok true ->
  exists item m c d,
    list_item feature = Ok item
    /\ get2 feature "properties" "mag" = Ok m
    /\ get2 feature "geometry" "coordinates" = Ok c
    /\ get_index c 2 = Ok d
    /\ get item "magnitude" = Ok m
    /\ get item "depth" = Ok d
    /\ ((exists row, list_row item = Ok row
                     /\ get row "color" = Ok (JStr (list_magnitude_color m)))
        <-> is_num m && is_num d = true)
    /\ (list_row item = Throw TypeError <-> is_num m && is_num d = false).
Proof.
  intro H. apply valid_feature_well_formed in H.
  destruct H as (ps & gps & pps & a & b & c & mag & place & time & -> & Ht
                 & Hg & Hgt & Hc & Hp & Hm & Hmag & Hpl & Hplace & Hti
                 & Htime).
  destruct (formatDate_total time) as [s Hs].
  exists (JObj [("id", match lookup "id" ps with
                       | Some x => x
                       | None => JUndefined
                       end);
                ("magnitude", mag); ("location", place);
                ("coordinates", JArr [a; b; c]); ("depth", c);
                ("time", JStr s); ("timestamp", time);
                ("url", match lookup "url" pps with
                        | Some x => x
                        | None => JUndefined
                        end)]),
    mag, (JArr [a; b; c]), c.
  unfold list_item, get2. cbn [get bind]. rewrite Hg, Hp. cbn [get bind].
  rewrite Hm, Hpl, Hc, Hti. cbn [bind get_index nth_error].
  rewrite Hs. cbn [bind].
  split; [destruct (lookup "id" ps), (lookup "url" pps); reflexivity|].
  do 5 (split; [reflexivity|]).
  unfold list_row. simpl get. cbn [bind].
  destruct mag; cbn [call_toFixed bind is_num andb];
    try (split; split; [intros (row & Hrow & _); discriminate Hrow
                       | discriminate | reflexivity | reflexivity]).
  destruct c; cbn [call_toFixed bind is_num andb];
    try (split; split; [intros (row & Hrow & _); discriminate Hrow
                       | discriminate | reflexivity | reflexivity]).
  split; split; try discriminate; try reflexivity.
  intros _. eexists. split; reflexivity.
Qed.

End SortedList.

Lemma list_is_sorted_by_falling_magnitude_witness :
  exists items sorted,
    mapM (list_item (host := Demo.host))
      [Demo.chiba; Demo.tokyo; Demo.kanto] = Ok items
    /\ sortedEarthquakes (host := Demo.host)
         [Demo.chiba; Demo.tokyo; Demo.kanto] = Ok sorted
    /\ Permutation items sorted
    /\ StronglySorted not_smaller sorted
    /\ List.length sorted = 3%nat.
Proof.
  apply (@list_is_sorted_by_falling_magnitude Demo.host
           [Demo.chiba; Demo.tokyo; Demo.kanto]).
  repeat constructor;
    (eexists; split; [reflexivity | eexists; reflexivity]).
Defined.

Lemma valid_feature_row_needs_numbers_witness :
  exists item m c d,
    list_item (host := Demo.host) Demo.tokyo = Ok item
    /\ get2 Demo.tokyo "properties" "mag" = Ok m
    /\ get2 Demo.tokyo "geometry" "coordinates" = Ok c
    /\ get_index c 2 = Ok d
    /\ get item "magnitude" = Ok m
    /\ get item "depth" = Ok d
    /\ ((exists row,
            list_row (host := Demo.host) (fmt := DemoX.format) item = Ok row
            /\ get row "color"
               = Ok (JStr (list_magnitude_color (host := Demo.host) m)))
        <-> is_num m && is_num d = true)
    /\ (list_row (host := Demo.host) (fmt := DemoX.format) item
        = Throw TypeError
        <-> is_num m && is_num d = false).
Proof.
  apply (@valid_feature_row_needs_numbers Demo.host DemoX.format Demo.tokyo).
  reflexivity.
Defined.

(* ===================================================================== *)
(** ** The filter panel *)
(* ===================================================================== *)

Lemma Qabs_inject_Z (z : Z) : Qabs (inject_Z z) = inject_Z (Z.abs z).
Proof. reflexivity. Qed.

Lemma trunc_integer (q : Q) (z : Z) :
  q == inject_Z z -> Filters.trunc q = z.
Proof.
  unfold Filters.trunc, Qeq. simpl. intro H.
  rewrite Z.mul_1_r in H. rewrite H. apply Z.quot_mul. discriminate.
Qed.

Lemma new_Date_integer (q : Q) (z : Z) :
  q == inject_Z z -> (Z.abs z <= 8640000000000000)%Z ->
  Filters.new_Date (Fin q) = Fin (inject_Z z).
Proof.
  intros Hq Hz. unfold Filters.new_Date.
  rewrite (trunc_integer q z Hq).
  destruct (Qle_bool_reflect (Qabs q) Filters.max_time) as [_ | H];
    [reflexivity|].
  exfalso. apply H. rewrite Hq. unfold Filters.max_time.
  rewrite Qabs_inject_Z. change 8640000000000000 with
    (inject_Z 8640000000000000). now rewrite <- Zle_Qle.
Qed.

(** X16. Typing a whole number of days into the custom range and reading
    the range back gives the number without its sign: when the clock and
    the start date it leads to are valid dates, the effect reports, for
    the custom range, exactly the absolute value of the number typed,
    together with the current minimum magnitude. *)
Theorem typed_days_come_back_without_sign (s : Filters.State)
  (now d : Z) :
  Filters.days (Filters.selectedTimeRange s) = None ->
  (Z.abs now <= 8640000000000000)%Z ->
  (Z.abs (now - d * 86400000) <= 8640000000000000)%Z ->
  Filters.filter_effect
    (Filters.days_changed s (Fin (inject_Z now)) (Fin (inject_Z d)))
  = (Filters.minMagnitude s, Fin (inject_Z (Z.abs d))).
Proof.
  intros Hcustom Hnow Hstart.
  unfold Filters.filter_effect, Filters.days_changed.
  cbn [Filters.selectedTimeRange Filters.days Filters.range_start
       Filters.range_end Filters.minMagnitude].
  rewrite Hcustom.
  rewrite (new_Date_integer (inject_Z now) now (Qeq_refl _) Hnow).
  cbn [Num.mul NumX.sub NumX.neg Num.add].
  rewrite (new_Date_integer _ (now - d * 86400000)); [|
    unfold Z.sub; rewrite inject_Z_plus, inject_Z_opp, inject_Z_mult;
    change (inject_Z 86400000) with 86400000; ring | exact Hstart].
  cbn [NumX.sub NumX.neg Num.add Filters.abs Num.div].
  replace (Num.is_zero (1000 * 60 * 60 * 24)) with false by reflexivity.
  cbn [Filters.ceil]. f_equal. f_equal. f_equal.
  rewrite <- (Qceiling_Z (Z.abs d)). apply Qceiling_comp.
  rewrite <- Qabs_inject_Z.
  unfold Z.sub. rewrite inject_Z_plus, inject_Z_opp, inject_Z_mult.
  change (inject_Z 86400000) with 86400000.
  setoid_replace
    (inject_Z now + - (inject_Z now + - (inject_Z d * 86400000)))
    with (inject_Z d * 86400000) by ring.
  rewrite Qabs_Qmult. change (Qabs 86400000) with 86400000. field.
Qed.

Lemma typed_days_come_back_without_sign_witness :
  Filters.filter_effect
    (Filters.days_changed
       (fst (Filters.handleTimeRangeChange
               (Filters.initial (Fin 1700000000000) (Fin 1700000000000))
               {| Filters.label := "Custom Range";
                  Filters.days := None |}))
       (Fin (inject_Z 1700000000000)) (Fin (inject_Z (-3))))
  = (Fin 5, Fin (inject_Z (Z.abs (-3)))).
Proof.
  apply (typed_days_come_back_without_sign
           (fst (Filters.handleTimeRangeChange
                   (Filters.initial (Fin 1700000000000)
                      (Fin 1700000000000))
                   {| Filters.label := "Custom Range";
                      Filters.days := None |}))
           1700000000000 (-3)); [reflexivity | simpl; lia | simpl; lia].
Defined.

Lemma toISOString_valid (date : option number) (time : number) :
  Filters.toISOString date = Ok time ->
  date = Some time /\ time <> NaN.
Proof.
  destruct date as [[| | |q]|]; simpl; intro H; try discriminate H;
    injection H as <-; split; congruence.
Qed.

(** A state that has been rendered shows, for the custom range, two dates
    that are valid. *)
Lemma rendered_range (s : Filters.State) :
  Filters.render s = Ok tt ->
  Filters.days (Filters.selectedTimeRange s) = None ->
  exists start finish,
    Filters.range_start s = Some start /\ start <> NaN
    /\ Filters.range_end s = Some finish /\ finish <> NaN.
Proof.
  unfold Filters.render. intros H Hcustom. rewrite Hcustom in H.
  apply bind_Ok in H as (start & Hstart & H).
  apply bind_Ok in H as (finish & Hfinish & _).
  apply toISOString_valid in Hstart as (Hstart & Vstart).
  apply toISOString_valid in Hfinish as (Hfinish & Vfinish).
  exists start, finish. auto.
Qed.

(** Whatever the events, the state they lead to has been rendered, unless
    none has happened yet. *)
Lemma run_rendered (events : list Filters.Event) (s s' : Filters.State) :
  Filters.run s events = Ok s' ->
  Filters.render s = Ok tt -> Filters.render s' = Ok tt.
Proof.
  revert s. induction events as [|e rest IH]; intros s H Hs.
  - injection H as <-. exact Hs.
  - cbn [Filters.run] in H. apply bind_Ok in H as (s1 & Hstep & H).
    apply (IH s1 H). unfold Filters.after in Hstep.
    apply bind_Ok in Hstep as ([] & Hshown & Hs1). now injection Hs1 as <-.
Qed.

(** X17. For the custom range the number kept in [customDays] is never
    what is reported.  In every state that the panel reaches from its
    initial state without an exception in the rendering, both ends of the
    custom range hold valid dates, the effect reports the number of days
    between them, rounded up, and changing the content of [customDays]
    alone changes nothing in the report. *)
Theorem custom_range_ignores_customDays (now now' : number)
  (events : list Filters.Event) (s : Filters.State) :
  Filters.run (Filters.initial now now') events = Ok s ->
  Filters.days (Filters.selectedTimeRange s) = None ->
  (exists start finish,
      Filters.range_start s = Some start /\ start <> NaN
      /\ Filters.range_end s = Some finish /\ finish <> NaN
      /\ Filters.filter_effect s
         = (Filters.minMagnitude s,
            Filters.ceil
              (Num.div (Filters.abs (NumX.sub finish start))
                 (Fin 86400000))))
  /\ forall value,
       Filters.filter_effect (Filters.with_customDays s value)
       = Filters.filter_effect s.
Proof.
  intros Hrun Hcustom.
  assert (Hshown : Filters.render s = Ok tt).
  { apply (run_rendered _ _ _ Hrun). reflexivity. }
  destruct (rendered_range s Hshown Hcustom)
    as (start & finish & Hstart & Vstart & Hfinish & Vfinish).
  split.
  - exists start, finish. do 4 (split; [assumption|]).
    unfold Filters.filter_effect. now rewrite Hcustom, Hstart, Hfinish.
  - intro value. unfold Filters.filter_effect.
    cbn [Filters.with_customDays Filters.selectedTimeRange
         Filters.range_start Filters.range_end Filters.minMagnitude].
    now rewrite Hcustom, Hstart, Hfinish.
Qed.

Lemma custom_range_ignores_customDays_witness :
  (exists start finish,
      Filters.range_start DemoF.state = Some start /\ start <> NaN
      /\ Filters.range_end DemoF.state = Some finish /\ finish <> NaN
      /\ Filters.filter_effect DemoF.state
         = (Filters.minMagnitude DemoF.state,
            Filters.ceil
              (Num.div (Filters.abs (NumX.sub finish start))
                 (Fin 86400000))))
  /\ forall value,
       Filters.filter_effect (Filters.with_customDays DemoF.state value)
       = Filters.filter_effect DemoF.state.
Proof.
  apply (custom_range_ignores_customDays DemoF.clock DemoF.clock
           DemoF.events DemoF.state); reflexivity.
Defined.

(** Once a date field of the custom range is cleared, the rendering throws
    and the panel reaches no state. *)
Example cleared_date_scenario :
  Filters.run (Filters.initial DemoF.clock DemoF.clock) DemoF.cleared
  = Throw Filters.RangeError.
Proof. reflexivity. Qed.
